(** * Exit-destination charts: aggregation and daily plot cache

    A shallow embedding of [app/visualize.py]: the two routes
    [moving_avg] and [exit_pie], the aggregation done by
    [plot_moving_avg] and [plot_exit_pie], the record query [_exit_df]
    and the cache maintenance of [_update_cache].

    Python exceptions are values of [exn]; code that can only raise is
    in the [result] monad, code that also touches the database or the
    file system is in the monad [M], which threads a [world] (the files
    and a log of the accesses made so far). *)

From Stdlib Require Import ZArith QArith String Ascii List Lia DecimalString DecimalZ DecimalPos.
From stdpp Require Import gmap strings list fin_maps.

Open Scope string_scope.
Open Scope list_scope.
Open Scope Z_scope.

(** ** Python values and exceptions *)

(** The exception classes that the code raises or lets through. *)
Inductive exn : Type :=
| HTTPException (status_code : Z) (detail : string)
| FileNotFoundError
| PermissionError
| JSONDecodeError
| KeyError (key : string)
| ZeroDivisionError
| OverflowError
| ValueError.

Inductive result (A : Type) : Type :=
| Ok (a : A)
| Raise (e : exn).
Arguments Ok {A} a.
Arguments Raise {A} e.

Definition rbind {A B : Type} (r : result A) (k : A -> result B) : result B :=
  match r with
  | Ok a => k a
  | Raise e => Raise e
  end.

Notation "'let?' x ':=' e 'in' k" := (rbind e (fun x => k))
  (at level 10, x name, e at level 100, k at level 200).

(** [for x in xs: acc = body(acc, x)], stopping at the first exception. *)
Fixpoint rfold {A B : Type} (body : B -> A -> result B) (xs : list A) (acc : B) : result B :=
  match xs with
  | [] => Ok acc
  | x :: rest => let? acc' := body acc x in rfold body rest acc'
  end.

(** [{key(x): value(x) for x in xs}] for distinct keys, in insertion order. *)
Fixpoint dict_comp {A V : Type} (value : A -> result V) (xs : list A) : result (list (A * V)) :=
  match xs with
  | [] => Ok []
  | x :: rest =>
      let? v := value x in
      let? d := dict_comp value rest in
      Ok ((x, v) :: d)
  end.

(** [str(n)] of an [int], as an f-string renders it. *)
Definition str (n : Z) : string := NilZero.string_of_int (Z.to_int n).

(** [needle in hay] on strings. *)
Fixpoint contains (needle hay : string) : bool :=
  String.prefix needle hay ||
  match hay with
  | EmptyString => false
  | String _ rest => contains needle rest
  end.

(** [a // b] is floor division, which is [Z.div] for a positive divisor. *)
Definition floordiv (a b : Z) : Z := a / b.

(** [a / b] on two [int]s: the division faults on a zero divisor.  The
    quotient is a float, the double nearest to the rational kept here in
    lowest terms: the model does not round, so that of the value of a
    cell only what rounding keeps may be read off it (that it is 0, that
    it is 1, that it lies between the two). *)
Definition truediv (a b : Z) : result Q :=
  if b =? 0 then Raise ZeroDivisionError
  else Ok (Qred (Qmake (a * Z.sgn b) (Z.to_pos (Z.abs b)))).

(** [len(range(start, stop, step))] as CPython computes it ([step] is
    never 0 in this program, see [STEP_nonzero]). *)
Definition range_len (start stop step : Z) : Z :=
  if 0 <? step then
    if start <? stop then 1 + (stop - 1 - start) / step else 0
  else if step <? 0 then
    if stop <? start then 1 + (start - 1 - stop) / (- step) else 0
  else 0.

Definition range (start stop step : Z) : list Z :=
  List.map (fun k => start + Z.of_nat k * step)
           (seq 0 (Z.to_nat (range_len start stop step))).

(** ** Dates *)

(** A [datetime.date] is its proleptic Gregorian ordinal
    ([date.toordinal()], 1 for 0001-01-01). *)
Definition date : Type := Z.

Definition _MAXORDINAL : Z := 3652059.

(** [timedelta(days=n)] *)
Definition timedelta (days : Z) : result Z :=
  if Z.abs days <=? 999999999 then Ok days else Raise OverflowError.

(** [d - timedelta(days=n)] *)
Definition date_sub (d : date) (days : Z) : result date :=
  let? delta := timedelta days in
  let o := d - delta in
  if (0 <? o) && (o <=? _MAXORDINAL) then Ok o else Raise OverflowError.

(** [d.timetuple().tm_yday], following [datetime._ord2ymd]: the position
    of the day in its 400-, 100-, 4- and 1-year cycle. *)
Definition tm_yday (d : date) : Z :=
  let n := d - 1 in
  let n := n mod 146097 in
  let n100 := n / 36524 in
  let n := n mod 36524 in
  let n := n mod 1461 in
  let n1 := n / 365 in
  let n := n mod 365 in
  if (n1 =? 4) || (n100 =? 4) then 366 else n + 1.

(** ** Records and data frames *)

(** Modelled from the spec: the [Member] declaration of [app/db.py] is
    not part of the sources; of a member the code reads the exit date
    and the exit destination. *)
Record Member : Type := { date_of_exit : date; exit_destination : string }.

(** The rows of the members table, in the order a query returns them. *)
Definition Session : Type := list Member.

(** A row of the frame built by [_exit_df], columns ['date'] and ['dest']. *)
Record row : Type := { row_date : date; row_dest : string }.

(** The frame of [_exit_df].  [[]] is [pd.DataFrame()], which has no
    columns at all: the columns appear with the first appended row. *)
Definition DataFrame : Type := list row.

(** [df.shape[0]] *)
Definition shape0 {A : Type} (df : list A) : Z := Z.of_nat (length df).

(** [series.unique()]: the distinct values in order of first appearance. *)
Fixpoint unique (xs : list string) : list string :=
  match xs with
  | [] => []
  | x :: rest => x :: List.filter (fun y => negb (String.eqb y x)) (unique rest)
  end.

(** [df['dest']]: a [KeyError] on a frame without that column. *)
Definition col_dest (df : DataFrame) : result (list string) :=
  match df with
  | [] => Raise (KeyError "dest")
  | _ => Ok (List.map row_dest df)
  end.

(** A cell of the [moving] frame: a float, [None] standing for NaN. *)
Definition cell : Type := option Q.

(** The [moving] frame: one row per bucket, indexed by the bucket's end
    date, one column per destination. *)
Definition Frame : Type := list (date * list (string * cell)).

(** [frame.fillna(v)] *)
Definition fillna (v : Q) (fr : Frame) : Frame :=
  List.map (fun r => (fst r, List.map (fun c => (fst c, Some (default v (snd c)))) (snd r))) fr.

(** ** Figures and their JSON text *)

(** A JSON document.  A figure is kept as the call that builds it: the
    charting library is a function of these arguments and nothing else
    is known of it.  Any other document ([null], [{}], [3], ...) is kept
    by its text. *)
Inductive figure : Type :=
| px_line (data_frame : Frame) (labels : list (string * string)) (title : string)
          (category_orders : list (string * list string))
| px_pie (data_frame : list (row * Z)) (values color names : string)
         (color_discrete_map : list (string * string))
| other_json (value : string).

(** Text, as found in a file or returned by [to_json]: either JSON,
    identified by the document it encodes, which is what [json.load]
    recovers, or text that is not JSON. *)
Inductive text : Type :=
| JsonText (doc : figure)
| RawText (s : string).

(** [fig.to_json()] *)
Definition to_json (fig : figure) : text := JsonText fig.

(** [json.dumps(fig)], what [json.dump(fig, f)] writes *)
Definition json_dumps (fig : figure) : text := JsonText fig.

(** [json.loads(s)], also [json.load(f)] on the content of [f] *)
Definition json_loads (s : text) : result figure :=
  match s with
  | JsonText doc => Ok doc
  | RawText _ => Raise JSONDecodeError
  end.

(** ** The world: files and the log of accesses *)

(** A regular file: whether this process may read it, and its content. *)
Record file : Type := { readable : bool; data : text }.

(** The accesses the code makes to the record source and to the file
    system, in the order they happen. *)
Inductive event : Type :=
| EvQuery (first last : date)
| EvOpenRead (path : string)
| EvOpenWrite (path : string)
| EvScandir (dir : string)
| EvRemove (path : string).

(** The regular files by path, and the log.  Directories are not
    modelled: the cache directory is taken to exist, to hold regular
    files only and to be writable by the process, as the program leaves
    it; what [open] and [os.remove] raise otherwise is outside the
    model, so that what is proved of [_update_cache] is about the runs
    that complete. *)
Record world : Type := { fs : gmap string file; log : list event }.

Definition M (A : Type) : Type := world -> result A * world.

Definition ret {A : Type} (a : A) : M A := fun w => (Ok a, w).

Definition bind {A B : Type} (c : M A) (k : A -> M B) : M B :=
  fun w =>
    match c w with
    | (Ok a, w') => k a w'
    | (Raise e, w') => (Raise e, w')
    end.

Definition lift {A : Type} (r : result A) : M A := fun w => (r, w).

Notation "'let*' x ':=' e 'in' k" := (bind e (fun x => k))
  (at level 10, x name, e at level 100, k at level 200).

(** [try: body / except <handled>: handler] *)
Definition try_except {A : Type} (body : M A) (handled : exn -> bool) (handler : M A) : M A :=
  fun w =>
    match body w with
    | (Ok a, w') => (Ok a, w')
    | (Raise e, w') => if handled e then handler w' else (Raise e, w')
    end.

(** [for x in xs: body(x)] *)
Fixpoint for_each {A : Type} (xs : list A) (body : A -> M unit) : M unit :=
  match xs with
  | [] => ret tt
  | x :: rest => let* _ := body x in for_each rest body
  end.

Definition emit (e : event) (w : world) : world :=
  {| fs := fs w; log := log w ++ [e] |}.

(** [with open(path) as f: f.read()] *)
Definition open_read (path : string) : M text :=
  fun w =>
    let w' := emit (EvOpenRead path) w in
    match fs w !! path with
    | None => (Raise FileNotFoundError, w')
    | Some f => if readable f then (Ok (data f), w') else (Raise PermissionError, w')
    end.

(** [with open(path, 'w') as f: f.write(content)]: the file is created
    when missing and truncated otherwise, keeping its mode.  The write
    is the one of a process that may write there; the [PermissionError]
    and [FileNotFoundError] of [open] on a file or directory it may not
    write to are not modelled. *)
Definition open_write (path : string) (content : text) : M unit :=
  fun w =>
    let mode := match fs w !! path with Some f => readable f | None => true end in
    (Ok tt, {| fs := <[path := {| readable := mode; data := content |}]> (fs w);
               log := log w ++ [EvOpenWrite path] |}).

(** [os.path.join(dir, name)] for a relative [name] *)
Definition path_join (dir name : string) : string := dir +:+ "/" +:+ name.

Fixpoint strip_prefix (p s : string) : option string :=
  match p with
  | EmptyString => Some s
  | String c p' =>
      match s with
      | EmptyString => None
      | String d s' => if Ascii.eqb c d then strip_prefix p' s' else None
      end
  end.

(** The name under which [path] is listed in [dir], when it lies
    directly in it. *)
Definition entry_name (dir path : string) : option string :=
  match strip_prefix (dir +:+ "/") path with
  | Some name =>
      if contains "/" name || String.eqb name "" then None else Some name
  | None => None
  end.

(** The entries of [dir] among the files, as pairs of [file.name] and
    [file.path].  Regular files only: a subdirectory of [dir], which
    [os.scandir] would list too, is not modelled. *)
Definition listing (dir : string) (files : gmap string file) : list (string * string) :=
  omap (fun kv : string * file =>
          match entry_name dir (fst kv) with
          | Some name => Some (name, fst kv)
          | None => None
          end) (map_to_list files).

(** [os.scandir(dir)] *)
Definition scandir (dir : string) : M (list (string * string)) :=
  fun w => (Ok (listing dir (fs w)), emit (EvScandir dir) w).

(** [os.remove(path)] *)
Definition os_remove (path : string) : M unit :=
  fun w =>
    let w' := emit (EvRemove path) w in
    match fs w !! path with
    | None => (Raise FileNotFoundError, w')
    | Some _ => (Ok tt, {| fs := delete path (fs w); log := log w' |})
    end.

(** ** The program *)

Definition PLOT_CACHE_DIR : string := "app/plotcache".

(** [_check_m(m)] *)
Definition _check_m (m : Z) : result unit :=
  if negb ((m =? 90) || (m =? 365))
  then Raise (HTTPException 404 "Not found. Try m=90 or m=365")
  else Ok tt.

(** [session.query(Member).filter((Member.date_of_exit > first)
    & (Member.date_of_exit <= last)).all()] *)
Definition query_exits (session : Session) (first last : date) : M (list Member) :=
  fun w =>
    (Ok (List.filter (fun ex => (first <? date_of_exit ex) && (date_of_exit ex <=? last)) session),
     emit (EvQuery first last) w).

(** [_exit_df(session, first, last)] *)
Definition _exit_df (session : Session) (first last : date) : M DataFrame :=
  let* exits := query_exits session first last in
  ret (fold_left (fun df ex => df ++ [{| row_date := date_of_exit ex;
                                         row_dest := exit_destination ex |}])
                 exits []).

(** [days_back//90 or 1] *)
Definition STEP (days_back : Z) : Z :=
  let q := floordiv days_back 90 in
  if q =? 0 then 1 else q.

(** [df[(df['date'] > start) & (df['date'] <= end)]] *)
Definition window (df : DataFrame) (start end_ : date) : DataFrame :=
  List.filter (fun r => (start <? row_date r) && (row_date r <=? end_)) df.

(** [{dest: sub[sub['dest']==dest].shape[0]/n_exits for dest in dests}] *)
Definition breakdown (sub : DataFrame) (n_exits : Z) (dests : list string)
  : result (list (string * cell)) :=
  dict_comp (fun dest =>
               let? p := truediv (shape0 (List.filter (fun r => String.eqb (row_dest r) dest) sub))
                                 n_exits in
               Ok (Some p))
            dests.

(** The body of the loop of [plot_moving_avg] for the offset [i]. *)
Definition bucket (df : DataFrame) (dests : list string) (m : Z) (last : date)
                  (moving : Frame) (i : Z) : result Frame :=
  let? end_ := date_sub last i in
  let? start := date_sub end_ m in
  let sub := window df start end_ in
  let n_exits := shape0 sub in
  let? bd := breakdown sub n_exits dests in
  Ok (moving ++ [(end_, bd)]).

(** The title, labels and category order handed to [px.line]. *)
Definition line_labels : list (string * string) :=
  [("index", "date"); ("value", "proportion")].

Definition CATEGORY_ORDER : list string :=
  ["Permanent Exit"; "Temporary Exit"; "Transitional Housing"; "Emergency Shelter";
   "Unknown/Other"].

(** The rows of [moving] computed by [plot_moving_avg] from the fetched
    frame: [dests], the loop and [fillna(0)]. *)
Definition moving_frame (df : DataFrame) (m days_back : Z) (last : date) : result Frame :=
  let? dest_col := col_dest df in
  let dests := unique dest_col in
  let? moving := rfold (bucket df dests m last) (range 0 days_back (STEP days_back)) [] in
  Ok (fillna 0 moving).

(** [plot_moving_avg(session, m, days_back)], [today] being [date.today()] *)
Definition plot_moving_avg (today : date) (session : Session) (m days_back : Z) : M text :=
  let* last := lift (date_sub today 180) in
  let* first := lift (date_sub last (m + days_back)) in
  let* df := _exit_df session first last in
  let* moving := lift (moving_frame df m days_back last) in
  ret (to_json (px_line moving line_labels (str m +:+ "-Day Moving Averages")
                        [("variable", CATEGORY_ORDER)])).

Definition color_discrete_map : list (string * string) :=
  [("Permanent Exit", "#636EFA"); ("Temporary Exit", "#EF553B");
   ("Transitional Housing", "#00CC96"); ("Emergency Shelter", "#AB63FA");
   ("Unknown/Other", "#FFA15A")].

(** [px.pie(df, values=.., color=.., names=.., color_discrete_map=..)]
    on the frame of [plot_exit_pie]: the arguments must name columns of
    the frame.  ['count'] is one by [df['count'] = 1]; ['dest'] is one
    only when a row was appended, so that on the frame without rows the
    call raises [ValueError]. *)
Definition pie (data_frame : list (row * Z)) (values color names : string)
               (color_map : list (string * string)) : result figure :=
  match data_frame with
  | [] => Raise ValueError
  | _ => Ok (px_pie data_frame values color names color_map)
  end.

(** [plot_exit_pie(session, m)] *)
Definition plot_exit_pie (today : date) (session : Session) (m : Z) : M text :=
  let* last := lift (date_sub today 180) in
  let* first := lift (date_sub last m) in
  let* df := _exit_df session first last in
  let df := List.map (fun r => (r, 1)) df in
  let* fig := lift (pie df "count" "dest" "dest" color_discrete_map) in
  ret (to_json fig).

(** [_update_cache(fig, cache_path, DoY)] *)
Definition _update_cache (fig : figure) (cache_path : string) (DoY : Z) : M unit :=
  let* _ := open_write cache_path (json_dumps fig) in
  let* entries := scandir PLOT_CACHE_DIR in
  for_each entries
    (fun entry => if negb (contains ("d" +:+ str DoY) (fst entry))
                  then os_remove (snd entry)
                  else ret tt).

(** A task queued on [after_response]: the arguments of [_update_cache]. *)
Record task : Type := { task_fig : figure; task_cache_path : string; task_DoY : Z }.

Definition is_FileNotFoundError (e : exn) : bool :=
  match e with
  | FileNotFoundError => true
  | _ => false
  end.

(** The cache file names of the two routes. *)
Definition moving_avg_cache_path (m days_back DoY : Z) : string :=
  path_join PLOT_CACHE_DIR
            ("MA" +:+ str m +:+ "-" +:+ str days_back +:+ "-d" +:+ str DoY +:+ ".json").

Definition exit_pie_cache_path (m DoY : Z) : string :=
  path_join PLOT_CACHE_DIR ("PIE" +:+ str m +:+ "-d" +:+ str DoY +:+ ".json").

(** [moving_avg(m, days_back, after_response, session)]: the returned
    figure and the tasks added to [after_response]. *)
Definition moving_avg (today : date) (session : Session) (m days_back : Z)
  : M (figure * list task) :=
  let* _ := lift (_check_m m) in
  let DoY := tm_yday today in
  let cache_path := moving_avg_cache_path m days_back DoY in
  try_except
    (let* f := open_read cache_path in
     let* fig := lift (json_loads f) in
     ret (fig, []))
    is_FileNotFoundError
    (let* s := plot_moving_avg today session m days_back in
     let* fig := lift (json_loads s) in
     ret (fig, [{| task_fig := fig; task_cache_path := cache_path; task_DoY := DoY |}])).

(** [exit_pie(m, after_response, session)] *)
Definition exit_pie (today : date) (session : Session) (m : Z) : M (figure * list task) :=
  let* _ := lift (_check_m m) in
  let DoY := tm_yday today in
  let cache_path := exit_pie_cache_path m DoY in
  try_except
    (let* f := open_read cache_path in
     let* fig := lift (json_loads f) in
     ret (fig, []))
    is_FileNotFoundError
    (let* s := plot_exit_pie today session m in
     let* fig := lift (json_loads s) in
     ret (fig, [{| task_fig := fig; task_cache_path := cache_path; task_DoY := DoY |}])).

(** The tasks of [after_response], run once the response is sent. *)
Definition run_tasks (tasks : list task) : M unit :=
  for_each tasks (fun t => _update_cache (task_fig t) (task_cache_path t) (task_DoY t)).

(** The handling of one request: the route, then its queued tasks. *)
Definition serve (route : M (figure * list task)) : M figure :=
  let* r := route in
  let* _ := run_tasks (snd r) in
  ret (fst r).

(** ** Notions used in the statements *)

(** Whether the sweep of [_update_cache] for day [DoY] leaves [path]
    alone: it is not listed in the cache directory, or its name holds
    the text [d<DoY>]. *)
Definition kept (DoY : Z) (path : string) : bool :=
  match entry_name PLOT_CACHE_DIR path with
  | Some name => contains ("d" +:+ str DoY) name
  | None => true
  end.

(** The file that [open(path, 'w')] and [json.dump(fig, f)] leave. *)
Definition written (w : world) (path : string) (fig : figure) : file :=
  {| readable := match fs w !! path with Some f => readable f | None => true end;
     data := json_dumps fig |}.

(** Whether the sweep for [tag] removes [path], given the listed entries. *)
Definition swept (tag path : string) (entries : list (string * string)) : bool :=
  existsb (fun e => String.eqb (snd e) path && negb (contains tag (fst e))) entries.

(** The row that [_exit_df] appends for a member. *)
Definition exit_row (ex : Member) : row :=
  {| row_date := date_of_exit ex; row_dest := exit_destination ex |}.

(** The condition of the query of [_exit_df]. *)
Definition exited_in (first last : date) (ex : Member) : bool :=
  (first <? date_of_exit ex) && (date_of_exit ex <=? last).

(** The task a route queues after computing [fig] afresh. *)
Definition cache_task (fig : figure) (cache_path : string) (DoY : Z) : task :=
  {| task_fig := fig; task_cache_path := cache_path; task_DoY := DoY |}.

(** What a route does on a cache miss, after the failed [open]:
    compute the plot, parse it and queue the cache update. *)
Definition recompute (plot : M text) (cache_path : string) (DoY : Z) : M (figure * list task) :=
  let* s := plot in
  let* fig := lift (json_loads s) in
  ret (fig, [cache_task fig cache_path DoY]).

(** How a route treats the three ways in which reading [cache_path] can
    fail in the world [w]: it recomputes when the file is missing, and
    lets the exception through when the file may not be read or does not
    hold JSON. *)
Definition read_failure_policy (route : M (figure * list task)) (plot : M text)
                               (cache_path : string) (DoY : Z) (w : world) : Prop :=
  (fs w !! cache_path = None ->
   route w = recompute plot cache_path DoY (emit (EvOpenRead cache_path) w)) /\
  (forall f, fs w !! cache_path = Some f -> readable f = false ->
             route w = (Raise PermissionError, emit (EvOpenRead cache_path) w)) /\
  (forall f s, fs w !! cache_path = Some f -> readable f = true -> data f = RawText s ->
               route w = (Raise JSONDecodeError, emit (EvOpenRead cache_path) w)).

(** Reading [cache_path] fails in [w]. *)
Definition read_fails (w : world) (cache_path : string) : Prop :=
  match fs w !! cache_path with
  | None => True
  | Some f => readable f = false \/ exists s, data f = RawText s
  end.

(** Every read failure is answered like a miss: with the outcome the
    route has when the file is not there. *)
Definition failure_is_miss (route : M (figure * list task)) (cache_path : string) : Prop :=
  forall w, read_fails w cache_path ->
            fst (route w) = fst (route {| fs := delete cache_path (fs w); log := log w |}).




(** ** Sample inputs *)

(** 2024-01-14, whose day of the year is 14. *)
Definition jan14 : date := 738899.

(** One exit on the anchor day of [jan14], 180 days earlier. *)
Definition one_exit : Session :=
  [{| date_of_exit := jan14 - 180; exit_destination := "Permanent Exit" |}].

(** Two exits, 89 and 178 days before the anchor day of [jan14]: every
    90-day window ending up to 178 days before the anchor holds one. *)
Definition two_exits : Session :=
  [{| date_of_exit := jan14 - 180 - 89; exit_destination := "Permanent Exit" |};
   {| date_of_exit := jan14 - 180 - 178; exit_destination := "Emergency Shelter" |}].

(** 2025-01-01, the first day of the following year. *)
Definition jan1_next : date := 739252.

Definition empty_world : world := {| fs := ∅; log := [] |}.

(** The cache file of [/exit-moving-avg/90/1] on [jan14] holds text that
    is not JSON. *)
Definition corrupt_world : world :=
  {| fs := {[ moving_avg_cache_path 90 1 14 := {| readable := true; data := RawText "{" |} ]};
     log := [] |}.

(** ** Further notions *)

(** The number of rows of [sub] with destination [dest]:
    [sub[sub['dest']==dest].shape[0]]. *)
Definition dest_count (sub : DataFrame) (dest : string) : Z :=
  shape0 (List.filter (fun r => String.eqb (row_dest r) dest) sub).

(** [c in s] for a character. *)
Fixpoint mem_char (c : ascii) (s : string) : bool :=
  match s with
  | EmptyString => false
  | String a rest => Ascii.eqb a c || mem_char c rest
  end.


(** * Properties *)

(** ** Strings *)

Lemma append_String (c : ascii) (s t : string) : String c s +:+ t = String c (s +:+ t).
Proof. reflexivity. Qed.

Lemma append_assoc (s t u : string) : (s +:+ t) +:+ u = s +:+ t +:+ u.
Proof.
  induction s as [|c s IH]; [reflexivity|].
  now rewrite !append_String, IH.
Qed.

Lemma prefix_append (s t : string) : String.prefix s (s +:+ t) = true.
Proof.
  induction s as [|c s IH]; simpl.
  - now destruct t.
  - destruct (ascii_dec c c) as [_|Hne]; [exact IH | now elim Hne].
Qed.

Lemma prefix_append_r (s t u : string) :
  String.prefix s t = true -> String.prefix s (t +:+ u) = true.
Proof.
  revert t. induction s as [|c s IH]; intros t H; simpl.
  - now destruct (t +:+ u).
  - destruct t as [|d t]; simpl in H; [discriminate H|].
    rewrite append_String. simpl.
    destruct (ascii_dec c d); [now apply IH | discriminate H].
Qed.

Lemma contains_prefix (needle hay : string) :
  String.prefix needle hay = true -> contains needle hay = true.
Proof. intros H. destruct hay; simpl in *; now rewrite H. Qed.

Lemma contains_here (needle rest : string) : contains needle (needle +:+ rest) = true.
Proof. apply contains_prefix, prefix_append. Qed.

Lemma contains_skip (needle before hay : string) :
  contains needle hay = true -> contains needle (before +:+ hay) = true.
Proof.
  intros H. induction before as [|c before IH]; simpl; [exact H|].
  rewrite IH. apply orb_true_r.
Qed.

Lemma contains_middle (needle before rest : string) :
  contains needle (before +:+ needle +:+ rest) = true.
Proof. apply contains_skip, contains_here. Qed.

Lemma strip_prefix_append (p s : string) : strip_prefix p (p +:+ s) = Some s.
Proof.
  induction p as [|c p IH]; simpl; [reflexivity|].
  now rewrite Ascii.eqb_refl.
Qed.

Lemma strip_prefix_Some (p s r : string) : strip_prefix p s = Some r -> s = p +:+ r.
Proof.
  revert s. induction p as [|c p IH]; intros s H; simpl in *.
  - injection H as ->. reflexivity.
  - destruct s as [|d s]; [discriminate|].
    destruct (Ascii.eqb c d) eqn:E; [|discriminate].
    apply Ascii.eqb_eq in E. subst d. rewrite append_String. f_equal. now apply IH.
Qed.

(** A path is listed under at most one name, and that name gives the
    path back. *)
Lemma entry_name_Some (dir path name : string) :
  entry_name dir path = Some name -> path = path_join dir name.
Proof.
  unfold entry_name, path_join. intros H.
  destruct (strip_prefix (dir +:+ "/") path) as [n|] eqn:E; [|discriminate].
  destruct (contains "/" n || String.eqb n ""); [discriminate|].
  injection H as ->. apply strip_prefix_Some in E. subst path.
  apply append_assoc.
Qed.

Lemma entry_name_join (dir name : string) :
  entry_name dir (path_join dir name) = None \/
  entry_name dir (path_join dir name) = Some name.
Proof.
  unfold entry_name, path_join.
  rewrite <- append_assoc, strip_prefix_append.
  destruct (contains "/" name || String.eqb name ""); [now left | now right].
Qed.

(** ** Integers and ranges *)

Lemma STEP_nonzero (days_back : Z) : STEP days_back <> 0.
Proof.
  unfold STEP. destruct (floordiv days_back 90 =? 0) eqn:E; [lia|].
  apply Z.eqb_neq in E. exact E.
Qed.

Lemma STEP_max (days_back : Z) :
  0 <= days_back -> STEP days_back = Z.max 1 (floordiv days_back 90).
Proof.
  intros H. unfold STEP, floordiv.
  assert (0 <= days_back / 90) by (apply Z.div_pos; lia).
  destruct (days_back / 90 =? 0) eqn:E.
  - apply Z.eqb_eq in E. lia.
  - apply Z.eqb_neq in E. lia.
Qed.


Lemma In_range (start stop step i : Z) :
  In i (range start stop step) <->
  exists k : Z, 0 <= k < range_len start stop step /\ i = start + k * step.
Proof.
  unfold range. rewrite in_map_iff. split.
  - intros (k & <- & Hk). apply in_seq in Hk. exists (Z.of_nat k). split; [lia | reflexivity].
  - intros (k & Hk & ->). exists (Z.to_nat k). split.
    + rewrite Z2Nat.id by lia. reflexivity.
    + apply in_seq. lia.
Qed.

(** A range with a positive step holds the multiples of the step below
    the stop, as the loop [i = 0, step, 2*step, ... while i < stop]. *)
Lemma In_range_up (stop step i : Z) :
  0 < step ->
  (In i (range 0 stop step) <-> exists k : Z, 0 <= k /\ i = k * step /\ i < stop).
Proof.
  intros Hs. rewrite In_range. unfold range_len.
  destruct (Z.ltb_spec 0 step) as [_|]; [|lia].
  destruct (Z.ltb_spec 0 stop) as [Hp|Hn].
  - split.
    + intros (k & [Hk0 Hk] & ->). exists k. repeat split; try lia.
      assert (k <= (stop - 1 - 0) / step) by lia.
      assert (step * ((stop - 1 - 0) / step) <= stop - 1 - 0)
        by (apply Z.mul_div_le; lia).
      nia.
    + intros (k & Hk0 & -> & Hlt). exists k. split; [|lia]. split; [lia|].
      assert (k <= (stop - 1 - 0) / step); [|lia].
      apply Z.div_le_lower_bound; lia.
  - split.
    + intros (k & Hk & _). lia.
    + intros (k & Hk0 & -> & Hlt). nia.
Qed.

(** ** Dates *)

Lemma date_sub_Ok (d : date) (days : Z) (o : date) :
  date_sub d days = Ok o -> o = d - days /\ 0 < o <= _MAXORDINAL.
Proof.
  unfold date_sub, timedelta.
  destruct (Z.abs days <=? 999999999); simpl; [|discriminate].
  destruct (Z.ltb_spec 0 (d - days)) as [Hlo|]; simpl; [|discriminate].
  destruct (Z.leb_spec (d - days) _MAXORDINAL) as [Hhi|]; simpl; [|discriminate].
  intros Heq. injection Heq as <-. lia.
Qed.

Lemma date_sub_Raise (d : date) (days : Z) (e : exn) :
  date_sub d days = Raise e -> e = OverflowError.
Proof.
  unfold date_sub, timedelta.
  destruct (Z.abs days <=? 999999999); simpl; [|congruence].
  destruct ((0 <? d - days) && (d - days <=? _MAXORDINAL)); [discriminate | congruence].
Qed.

(** ** The cache directory *)

Lemma for_each_sweep (tag : string) (entries : list (string * string)) (w : world) :
  NoDup (List.map snd entries) ->
  (forall e, e ∈ entries -> is_Some (fs w !! snd e)) ->
  exists w',
    for_each entries
      (fun entry => if negb (contains tag (fst entry)) then os_remove (snd entry) else ret tt) w
    = (Ok tt, w') /\
    forall p, fs w' !! p = if swept tag p entries then None else fs w !! p.
Proof.
  revert w. induction entries as [|e rest IH]; intros w Hnd Hin.
  - exists w. split; [reflexivity | intros p; reflexivity].
  - simpl in Hnd. apply NoDup_cons in Hnd as [Hfresh Hnd].
    assert (He : is_Some (fs w !! snd e)) by (apply Hin; left).
    destruct He as [f Hf].
    simpl. unfold bind at 1.
    destruct (contains tag (fst e)) eqn:Htag; simpl.
    + destruct (IH w Hnd) as (w' & Hrun & Hfs).
      { intros e' He'. apply Hin. now right. }
      exists w'. split; [exact Hrun|]. intros p.
      rewrite Hfs. unfold swept. simpl.
      now rewrite andb_false_r.
    + unfold os_remove at 1. rewrite Hf.
      set (w1 := {| fs := delete (snd e) (fs w); log := log (emit (EvRemove (snd e)) w) |}).
      destruct (IH w1 Hnd) as (w' & Hrun & Hfs).
      { intros e' He'. simpl. rewrite lookup_delete_ne.
        - apply Hin. now right.
        - intros Heq. apply Hfresh. rewrite Heq.
          apply list_elem_of_In, in_map, list_elem_of_In, He'. }
      exists w'. split; [exact Hrun|]. intros p.
      rewrite Hfs. unfold swept. simpl. rewrite andb_true_r.
      destruct (String.eqb_spec (snd e) p) as [->|Hne]; simpl.
      * destruct (existsb _ rest); [reflexivity | apply lookup_delete_eq].
      * destruct (existsb _ rest); [reflexivity | now apply lookup_delete_ne].
Qed.

Lemma listing_elem (dir : string) (files : gmap string file) (e : string * string) :
  e ∈ listing dir files <->
  is_Some (files !! snd e) /\ entry_name dir (snd e) = Some (fst e).
Proof.
  unfold listing. rewrite list_elem_of_omap. split.
  - intros ([p f] & Hin & Hsome). apply elem_of_map_to_list in Hin. simpl in Hsome.
    destruct (entry_name dir p) as [n|] eqn:E; [|discriminate].
    injection Hsome as <-. simpl. split; [eauto | exact E].
  - intros [[f Hf] Hname]. exists (snd e, f). split.
    + now apply elem_of_map_to_list.
    + simpl. rewrite Hname. now destruct e.
Qed.

Lemma listing_NoDup (dir : string) (files : gmap string file) :
  NoDup (List.map snd (listing dir files)).
Proof.
  unfold listing. pose proof (NoDup_fst_map_to_list files) as Hnd.
  induction (map_to_list files) as [|[p f] l IH]; simpl; [constructor|].
  change (fst <$> (p, f) :: l) with (p :: (fst <$> l)) in Hnd.
  apply NoDup_cons in Hnd as [Hfresh Hnd].
  destruct (entry_name dir p) as [n|]; simpl; [|now apply IH].
  apply NoDup_cons. split; [|now apply IH].
  intros Hin. apply Hfresh.
  apply list_elem_of_In, in_map_iff in Hin as ([n' p'] & Heq & Hin). simpl in Heq. subst p'.
  apply list_elem_of_In, list_elem_of_omap in Hin as ([q g] & Hq & Hsome). simpl in Hsome.
  destruct (entry_name dir q); [|discriminate].
  injection Hsome as _ <-.
  apply list_elem_of_In, in_map_iff. exists (q, g). split; [reflexivity|].
  now apply list_elem_of_In.
Qed.

(** [_update_cache] always completes; afterwards the files are those of
    before with the new one written, less the ones swept. *)
Lemma _update_cache_fs (fig : figure) (cache_path : string) (DoY : Z) (w : world) :
  exists w', _update_cache fig cache_path DoY w = (Ok tt, w') /\
    forall p, fs w' !! p =
              if kept DoY p then <[cache_path := written w cache_path fig]> (fs w) !! p
              else None.
Proof.
  set (files := <[cache_path := written w cache_path fig]> (fs w)).
  set (w1 := {| fs := files; log := log w ++ [EvOpenWrite cache_path] |}).
  set (tag := "d" +:+ str DoY).
  destruct (for_each_sweep tag (listing PLOT_CACHE_DIR files)
                           (emit (EvScandir PLOT_CACHE_DIR) w1))
    as (w' & Hrun & Hfs).
  { apply listing_NoDup. }
  { intros e He. apply listing_elem in He. apply He. }
  exists w'. split; [exact Hrun|]. intros p. rewrite Hfs. simpl.
  unfold kept. fold tag.
  destruct (swept tag p (listing PLOT_CACHE_DIR files)) eqn:Hs.
  - apply existsb_exists in Hs as (e & He & Hb).
    apply andb_true_iff in Hb as [Hp Hb]. apply String.eqb_eq in Hp. subst p.
    apply list_elem_of_In, listing_elem in He as [_ ->].
    now apply negb_true_iff in Hb as ->.
  - destruct (entry_name PLOT_CACHE_DIR p) as [n|] eqn:En; [|reflexivity].
    destruct (contains tag n) eqn:Hc; [reflexivity|].
    destruct (files !! p) as [f|] eqn:Hf; [|reflexivity].
    exfalso. apply not_true_iff_false in Hs. apply Hs.
    apply existsb_exists. exists (n, p). split.
    + apply list_elem_of_In, listing_elem. simpl. eauto.
    + simpl. now rewrite String.eqb_refl, Hc.
Qed.

(** The entry just written survives the sweep when its name carries the
    day tag. *)
Lemma _update_cache_keeps_tagged (fig : figure) (name : string) (DoY : Z) (w : world) :
  contains ("d" +:+ str DoY) name = true ->
  exists w', _update_cache fig (path_join PLOT_CACHE_DIR name) DoY w = (Ok tt, w') /\
    fs w' !! path_join PLOT_CACHE_DIR name
    = Some (written w (path_join PLOT_CACHE_DIR name) fig).
Proof.
  intros Htag.
  destruct (_update_cache_fs fig (path_join PLOT_CACHE_DIR name) DoY w) as (w' & Hrun & Hfs).
  exists w'. split; [exact Hrun|]. rewrite Hfs.
  assert (kept DoY (path_join PLOT_CACHE_DIR name) = true) as ->.
  { unfold kept. destruct (entry_name_join PLOT_CACHE_DIR name) as [-> | ->]; auto. }
  apply lookup_insert_eq.
Qed.

(** After the sweep every file listed in the cache directory has a name
    that holds the day tag. *)
Lemma _update_cache_sweeps (fig : figure) (cache_path : string) (DoY : Z) (w w' : world) :
  _update_cache fig cache_path DoY w = (Ok tt, w') ->
  forall path name,
    is_Some (fs w' !! path) ->
    entry_name PLOT_CACHE_DIR path = Some name ->
    contains ("d" +:+ str DoY) name = true.
Proof.
  intros Hrun path name [f Hf] Hname.
  destruct (_update_cache_fs fig cache_path DoY w) as (w'' & Hrun' & Hfs).
  rewrite Hrun in Hrun'. injection Hrun' as <-.
  rewrite Hfs in Hf. unfold kept in Hf. rewrite Hname in Hf.
  now destruct (contains ("d" +:+ str DoY) name).
Qed.

(** The sweep leaves the files outside the cache directory alone. *)
Lemma _update_cache_elsewhere (fig : figure) (cache_path : string) (DoY : Z) (w w' : world) :
  _update_cache fig cache_path DoY w = (Ok tt, w') ->
  forall path,
    entry_name PLOT_CACHE_DIR path = None -> path <> cache_path ->
    fs w' !! path = fs w !! path.
Proof.
  intros Hrun path Hname Hne.
  destruct (_update_cache_fs fig cache_path DoY w) as (w'' & Hrun' & Hfs).
  rewrite Hrun in Hrun'. injection Hrun' as <-.
  rewrite Hfs. unfold kept. rewrite Hname. now apply lookup_insert_ne.
Qed.

(** ** The parameter check *)

(** C5: for every [m] other than 90 and 365 both routes raise the 404
    error with the detail "Not found. Try m=90 or m=365", and the world
    is left as it was: no query, no file access, nothing logged. *)
Theorem invalid_m_rejected_first (today : date) (session : Session) (m days_back : Z)
                                 (w : world) :
  m <> 90 -> m <> 365 ->
  moving_avg today session m days_back w
  = (Raise (HTTPException 404 "Not found. Try m=90 or m=365"), w) /\
  exit_pie today session m w
  = (Raise (HTTPException 404 "Not found. Try m=90 or m=365"), w).
Proof.
  intros H90 H365.
  unfold moving_avg, exit_pie, bind, lift, _check_m.
  apply Z.eqb_neq in H90, H365. rewrite H90, H365. simpl. split; reflexivity.
Qed.

Lemma invalid_m_rejected_first_witness :
  moving_avg jan14 one_exit 91 30 empty_world
  = (Raise (HTTPException 404 "Not found. Try m=90 or m=365"), empty_world) /\
  exit_pie jan14 one_exit 91 empty_world
  = (Raise (HTTPException 404 "Not found. Try m=90 or m=365"), empty_world).
Proof. apply (invalid_m_rejected_first jan14 one_exit 91 30 empty_world); lia. Defined.

(** ** The record query *)

Lemma append_rows (exits : list Member) (df : DataFrame) :
  fold_left (fun df ex => df ++ [{| row_date := date_of_exit ex;
                                    row_dest := exit_destination ex |}]) exits df
  = df ++ List.map exit_row exits.
Proof.
  revert df. induction exits as [|ex exits IH]; intros df; simpl.
  - now rewrite app_nil_r.
  - rewrite IH, <- app_assoc. reflexivity.
Qed.

Lemma _exit_df_eq (session : Session) (first last : date) (w : world) :
  _exit_df session first last w
  = (Ok (List.map exit_row (List.filter (exited_in first last) session)),
     emit (EvQuery first last) w).
Proof.
  unfold _exit_df, bind, query_exits, ret. now rewrite append_rows.
Qed.

(** C7: the frame of [_exit_df] holds exactly the records with
    [first < exit_date <= last]: every row satisfies the bound and comes
    from a stored member, every stored member within the bound has its
    row in the frame, and there are as many rows as such members. *)
Theorem exit_df_exact (session : Session) (first last : date) (w : world) :
  exists df : DataFrame,
    _exit_df session first last w = (Ok df, emit (EvQuery first last) w) /\
    (forall r, In r df ->
               first < row_date r <= last /\ exists ex, In ex session /\ r = exit_row ex) /\
    (forall ex, In ex session -> first < date_of_exit ex <= last -> In (exit_row ex) df) /\
    length df = length (List.filter (exited_in first last) session).
Proof.
  exists (List.map exit_row (List.filter (exited_in first last) session)).
  split; [apply _exit_df_eq|]. split; [|split].
  - intros r Hr. apply in_map_iff in Hr as (ex & <- & Hex).
    apply filter_In in Hex as [Hin Hb]. unfold exited_in in Hb.
    apply andb_true_iff in Hb as [Hlo Hhi].
    apply Z.ltb_lt in Hlo. apply Z.leb_le in Hhi.
    split; [simpl; lia | eauto].
  - intros ex Hin [Hlo Hhi]. apply in_map, filter_In. split; [exact Hin|].
    unfold exited_in. apply andb_true_iff. split; [now apply Z.ltb_lt | now apply Z.leb_le].
  - apply length_map.
Qed.

Lemma exit_df_exact_witness :
  exists df : DataFrame,
    _exit_df one_exit (jan14 - 270) (jan14 - 180) empty_world
    = (Ok df, emit (EvQuery (jan14 - 270) (jan14 - 180)) empty_world) /\
    In {| row_date := jan14 - 180; row_dest := "Permanent Exit" |} df.
Proof.
  destruct (exit_df_exact one_exit (jan14 - 270) (jan14 - 180) empty_world)
    as (df & Hrun & _ & Hall & _).
  exists df. split; [exact Hrun|].
  apply (Hall {| date_of_exit := jan14 - 180; exit_destination := "Permanent Exit" |}).
  - left. reflexivity.
  - unfold jan14. simpl. lia.
Defined.

(** ** The written entry and the sweep *)

Lemma moving_avg_name_tagged (m days_back DoY : Z) :
  contains ("d" +:+ str DoY)
           ("MA" +:+ str m +:+ "-" +:+ str days_back +:+ "-d" +:+ str DoY +:+ ".json") = true.
Proof.
  do 4 apply contains_skip.
  change (contains ("d" +:+ str DoY) ("-" +:+ ("d" +:+ str DoY) +:+ ".json") = true).
  apply contains_middle.
Qed.

Lemma exit_pie_name_tagged (m DoY : Z) :
  contains ("d" +:+ str DoY) ("PIE" +:+ str m +:+ "-d" +:+ str DoY +:+ ".json") = true.
Proof.
  do 2 apply contains_skip.
  change (contains ("d" +:+ str DoY) ("-" +:+ ("d" +:+ str DoY) +:+ ".json") = true).
  apply contains_middle.
Qed.

(** C9: for every figure and day of the year, [_update_cache] completes
    and the file at the cache path of either route then exists and holds
    the dumped figure: the sweep keeps it, its name holding [d<DoY>]. *)
Theorem written_entry_survives (fig : figure) (m days_back DoY : Z) (w : world) :
  (exists w' f,
      _update_cache fig (moving_avg_cache_path m days_back DoY) DoY w = (Ok tt, w') /\
      fs w' !! moving_avg_cache_path m days_back DoY = Some f /\
      data f = json_dumps fig) /\
  (exists w' f,
      _update_cache fig (exit_pie_cache_path m DoY) DoY w = (Ok tt, w') /\
      fs w' !! exit_pie_cache_path m DoY = Some f /\
      data f = json_dumps fig).
Proof.
  split.
  - destruct (_update_cache_keeps_tagged fig _ DoY w (moving_avg_name_tagged m days_back DoY))
      as (w' & Hrun & Hf).
    exists w'. eexists. split; [exact Hrun|]. split; [exact Hf | reflexivity].
  - destruct (_update_cache_keeps_tagged fig _ DoY w (exit_pie_name_tagged m DoY))
      as (w' & Hrun & Hf).
    exists w'. eexists. split; [exact Hrun|]. split; [exact Hf | reflexivity].
Qed.

(** ** The routes, case by case *)

Lemma _check_m_valid (m : Z) : m = 90 \/ m = 365 -> _check_m m = Ok tt.
Proof. intros [-> | ->]; reflexivity. Qed.

Lemma moving_avg_cases (today : date) (session : Session) (m days_back : Z) (w : world) :
  _check_m m = Ok tt ->
  moving_avg today session m days_back w =
  let cache_path := moving_avg_cache_path m days_back (tm_yday today) in
  let w' := emit (EvOpenRead cache_path) w in
  match fs w !! cache_path with
  | None => recompute (plot_moving_avg today session m days_back) cache_path (tm_yday today) w'
  | Some f =>
      if readable f then
        match data f with
        | JsonText fig => (Ok (fig, []), w')
        | RawText _ => (Raise JSONDecodeError, w')
        end
      else (Raise PermissionError, w')
  end.
Proof.
  intros Hm. unfold moving_avg. unfold bind at 1. unfold lift at 1. rewrite Hm.
  unfold try_except, bind at 1 2, open_read. cbv zeta.
  destruct (fs w !! moving_avg_cache_path m days_back (tm_yday today)) as [f|]; simpl.
  - destruct (readable f); simpl; [|reflexivity].
    destruct (data f); reflexivity.
  - reflexivity.
Qed.

Lemma exit_pie_cases (today : date) (session : Session) (m : Z) (w : world) :
  _check_m m = Ok tt ->
  exit_pie today session m w =
  let cache_path := exit_pie_cache_path m (tm_yday today) in
  let w' := emit (EvOpenRead cache_path) w in
  match fs w !! cache_path with
  | None => recompute (plot_exit_pie today session m) cache_path (tm_yday today) w'
  | Some f =>
      if readable f then
        match data f with
        | JsonText fig => (Ok (fig, []), w')
        | RawText _ => (Raise JSONDecodeError, w')
        end
      else (Raise PermissionError, w')
  end.
Proof.
  intros Hm. unfold exit_pie. unfold bind at 1. unfold lift at 1. rewrite Hm.
  unfold try_except, bind at 1 2, open_read. cbv zeta.
  destruct (fs w !! exit_pie_cache_path m (tm_yday today)) as [f|]; simpl.
  - destruct (readable f); simpl; [|reflexivity].
    destruct (data f); reflexivity.
  - reflexivity.
Qed.

(** Computing a plot reads the record source only: the files stay. *)
Lemma plot_moving_avg_fs (today : date) (session : Session) (m days_back : Z) (w : world) :
  fs (snd (plot_moving_avg today session m days_back w)) = fs w.
Proof.
  unfold plot_moving_avg, bind, lift.
  destruct (date_sub today 180) as [last|]; [|reflexivity].
  destruct (date_sub last (m + days_back)) as [first|]; [|reflexivity].
  rewrite _exit_df_eq.
  destruct (moving_frame _ m days_back last); reflexivity.
Qed.

Lemma plot_exit_pie_fs (today : date) (session : Session) (m : Z) (w : world) :
  fs (snd (plot_exit_pie today session m w)) = fs w.
Proof.
  unfold plot_exit_pie, bind, lift.
  destruct (date_sub today 180) as [last|]; [|reflexivity].
  destruct (date_sub last m) as [first|]; [|reflexivity].
  rewrite _exit_df_eq. destruct (pie _ _ _ _ _); reflexivity.
Qed.

(** ** Read failures *)

(** C4, as the code has it: of the failures of the cache read only the
    missing file is a miss, after which the route recomputes; a file that
    may not be read raises [PermissionError] and one that does not hold
    JSON raises [JSONDecodeError], both out of the route, before any
    recomputation. *)
Theorem only_missing_file_is_a_miss (today : date) (session : Session) (m days_back : Z)
                                    (w : world) :
  m = 90 \/ m = 365 ->
  read_failure_policy (moving_avg today session m days_back)
                      (plot_moving_avg today session m days_back)
                      (moving_avg_cache_path m days_back (tm_yday today)) (tm_yday today) w /\
  read_failure_policy (exit_pie today session m)
                      (plot_exit_pie today session m)
                      (exit_pie_cache_path m (tm_yday today)) (tm_yday today) w.
Proof.
  intros Hm. apply _check_m_valid in Hm. split.
  - repeat split.
    + intros Hf. rewrite moving_avg_cases by exact Hm. cbv zeta. now rewrite Hf.
    + intros f Hf Hr. rewrite moving_avg_cases by exact Hm. cbv zeta. now rewrite Hf, Hr.
    + intros f s Hf Hr Hd. rewrite moving_avg_cases by exact Hm. cbv zeta.
      now rewrite Hf, Hr, Hd.
  - repeat split.
    + intros Hf. rewrite exit_pie_cases by exact Hm. cbv zeta. now rewrite Hf.
    + intros f Hf Hr. rewrite exit_pie_cases by exact Hm. cbv zeta. now rewrite Hf, Hr.
    + intros f s Hf Hr Hd. rewrite exit_pie_cases by exact Hm. cbv zeta.
      now rewrite Hf, Hr, Hd.
Qed.

Lemma only_missing_file_is_a_miss_witness :
  moving_avg jan14 one_exit 90 1 corrupt_world
  = (Raise JSONDecodeError, emit (EvOpenRead (moving_avg_cache_path 90 1 14)) corrupt_world).
Proof.
  destruct (only_missing_file_is_a_miss jan14 one_exit 90 1 corrupt_world) as [[_ [_ H]] _].
  - left. reflexivity.
  - apply (H {| readable := true; data := RawText "{" |} "{"); reflexivity.
Defined.

(** C4 as claimed fails: a cache file that does not hold JSON is a read
    failure, and the route answers it with [JSONDecodeError], not with
    what it returns when the file is missing. *)
Lemma corrupt_cache_is_not_a_miss :
  ~ failure_is_miss (moving_avg jan14 one_exit 90 1) (moving_avg_cache_path 90 1 14).
Proof.
  intros H. specialize (H corrupt_world).
  assert (Hfail : read_fails corrupt_world (moving_avg_cache_path 90 1 14)).
  { unfold read_fails. vm_compute. right. now exists "{". }
  specialize (H Hfail). vm_compute in H. discriminate H.
Qed.

(** ** Two calls on the same day *)

(** C8: when a call of [moving_avg] has returned a figure and its queued
    cache write has run, a second call on a day with the same day of the
    year returns the same figure, read from the cache file (its only
    access is that read: no query, no task); the file parses to the
    figure, and holds its dump when the first call computed it afresh. *)
Theorem moving_avg_twice_same_day (today today' : date) (session : Session) (m days_back : Z)
                                  (w w1 : world) (fig : figure) (tasks : list task) :
  moving_avg today session m days_back w = (Ok (fig, tasks), w1) ->
  tm_yday today' = tm_yday today ->
  exists w2 f,
    run_tasks tasks w1 = (Ok tt, w2) /\
    fs w2 !! moving_avg_cache_path m days_back (tm_yday today) = Some f /\
    json_loads (data f) = Ok fig /\
    (tasks <> [] -> data f = json_dumps fig) /\
    moving_avg today' session m days_back w2
    = (Ok (fig, []), emit (EvOpenRead (moving_avg_cache_path m days_back (tm_yday today))) w2).
Proof.
  intros Hrun Hday.
  assert (Hm : _check_m m = Ok tt).
  { destruct (_check_m m) as [[]|e] eqn:E; [reflexivity|].
    unfold moving_avg, bind, lift in Hrun. rewrite E in Hrun. discriminate Hrun. }
  rewrite moving_avg_cases in Hrun by exact Hm.
  pose proof (fun w2 => moving_avg_cases today' session m days_back w2 Hm) as Hagain.
  rewrite Hday in Hagain.
  cbv zeta in *.
  set (path := moving_avg_cache_path m days_back (tm_yday today)) in *.
  destruct (fs w !! path) as [f|] eqn:Hf.
  - destruct (readable f) eqn:Hr; [|discriminate Hrun].
    destruct (data f) as [doc|] eqn:Hd; [|discriminate Hrun].
    injection Hrun as <- <- <-.
    exists (emit (EvOpenRead path) w), f. rewrite Hagain. simpl.
    rewrite Hf, Hr, Hd.
    split; [reflexivity|]. split; [reflexivity|]. split; [reflexivity|].
    split; [congruence | reflexivity].
  - unfold recompute, bind, lift, ret in Hrun.
    pose proof (plot_moving_avg_fs today session m days_back (emit (EvOpenRead path) w)) as Hfs.
    destruct (plot_moving_avg today session m days_back (emit (EvOpenRead path) w))
      as [[s|e] wq]; [|discriminate Hrun].
    destruct (json_loads s) as [fig'|e] eqn:Hj; [|discriminate Hrun].
    injection Hrun as <- <- <-. simpl in Hfs.
    destruct (_update_cache_keeps_tagged fig' _ (tm_yday today) wq
                (moving_avg_name_tagged m days_back (tm_yday today)))
      as (w2 & Hupd & Hlook).
    fold (moving_avg_cache_path m days_back (tm_yday today)) in Hupd, Hlook.
    fold path in Hupd, Hlook.
    exists w2, (written wq path fig').
    assert (Hw : written wq path fig' = {| readable := true; data := json_dumps fig' |}).
    { unfold written. now rewrite Hfs, Hf. }
    split; [|split; [exact Hlook|]].
    + unfold run_tasks, cache_task. simpl. unfold bind. now rewrite Hupd.
    + split; [reflexivity|]. split; [reflexivity|].
      rewrite Hagain, Hlook, Hw. reflexivity.
Qed.

Lemma moving_avg_twice_same_day_witness :
  exists fig tasks w1 w2,
    moving_avg jan14 one_exit 90 1 empty_world = (Ok (fig, tasks), w1) /\
    run_tasks tasks w1 = (Ok tt, w2) /\
    moving_avg jan14 one_exit 90 1 w2
    = (Ok (fig, []), emit (EvOpenRead (moving_avg_cache_path 90 1 (tm_yday jan14))) w2).
Proof.
  destruct (moving_avg jan14 one_exit 90 1 empty_world) as [[[fig tasks]|e] w1] eqn:Hrun;
    [|vm_compute in Hrun; discriminate Hrun].
  destruct (moving_avg_twice_same_day jan14 jan14 one_exit 90 1 empty_world w1 fig tasks
              Hrun eq_refl) as (w2 & f & Htasks & _ & _ & _ & Hagain).
  exists fig, tasks, w1, w2. repeat split; [exact Htasks | exact Hagain].
Defined.

(** ** Buckets *)

Lemma truediv_nonzero (a b : Z) :
  0 < b -> truediv a b = Ok (Qred (Qmake a (Z.to_pos b))).
Proof.
  intros Hb. unfold truediv.
  destruct (Z.eqb_spec b 0) as [->|_]; [lia|].
  rewrite Z.sgn_pos, Z.abs_eq, Z.mul_1_r by lia. reflexivity.
Qed.

Lemma dict_comp_keys {A V : Type} (value : A -> result V) (xs : list A) (d : list (A * V)) :
  dict_comp value xs = Ok d -> List.map fst d = xs.
Proof.
  revert d. induction xs as [|x xs IH]; intros d H; simpl in H.
  - injection H as <-. reflexivity.
  - destruct (value x) as [v|]; [|discriminate H]. simpl in H.
    destruct (dict_comp value xs) as [d'|]; [|discriminate H]. simpl in H.
    injection H as <-. simpl. f_equal. now apply IH.
Qed.

Lemma dict_comp_total {A V : Type} (value : A -> result V) (f : A -> V) (xs : list A) :
  (forall x, In x xs -> value x = Ok (f x)) ->
  dict_comp value xs = Ok (List.map (fun x => (x, f x)) xs).
Proof.
  induction xs as [|x xs IH]; intros H; simpl; [reflexivity|].
  rewrite (H x) by now left. simpl.
  rewrite IH by (intros y Hy; apply H; now right). reflexivity.
Qed.


(** A bucket with no record faults as soon as there is a destination to
    divide for. *)
Lemma breakdown_empty_bucket (dest : string) (dests : list string) :
  breakdown [] (shape0 (@nil row)) (dest :: dests) = Raise ZeroDivisionError.
Proof. reflexivity. Qed.

(** A bucket with records has the proportion of every destination asked for. *)
Lemma breakdown_nonempty (sub : DataFrame) (dests : list string) :
  sub <> [] ->
  breakdown sub (shape0 sub) dests
  = Ok (List.map
          (fun dest =>
             (dest,
              Some (Qred (Qmake (shape0 (List.filter (fun r => String.eqb (row_dest r) dest) sub))
                                (Z.to_pos (shape0 sub))))))
          dests).
Proof.
  intros Hsub. unfold breakdown.
  apply (dict_comp_total _
           (fun dest =>
              Some (Qred (Qmake (shape0 (List.filter (fun r => String.eqb (row_dest r) dest) sub))
                                (Z.to_pos (shape0 sub)))))).
  intros dest _. rewrite truediv_nonzero; [reflexivity|].
  unfold shape0. destruct sub; [contradiction | simpl; lia].
Qed.

Lemma fillna_index (v : Q) (fr : Frame) : List.map fst (fillna v fr) = List.map fst fr.
Proof. unfold fillna. rewrite map_map. reflexivity. Qed.

Lemma fillna_columns (v : Q) (fr : Frame) (cols : list string) :
  Forall (fun r => List.map fst (snd r) = cols) fr ->
  Forall (fun r => List.map fst (snd r) = cols) (fillna v fr).
Proof.
  unfold fillna. intros H. apply Forall_map. eapply Forall_impl; [exact H|].
  intros [idx cells] Hc. simpl in *. now rewrite map_map.
Qed.

Section Loop.

Variables (df : DataFrame) (dests : list string) (m : Z) (last : date).

(** One turn of the loop appends one row: its index is the end date of
    the bucket and its columns are the destinations. *)
Lemma bucket_Ok (moving moving' : Frame) (i : Z) :
  bucket df dests m last moving i = Ok moving' ->
  exists bd, moving' = moving ++ [(last - i, bd)] /\ List.map fst bd = dests.
Proof.
  unfold bucket. intros H.
  destruct (date_sub last i) as [end_|] eqn:Hend; [|discriminate H]. simpl in H.
  destruct (date_sub end_ m) as [start|]; [|discriminate H]. simpl in H.
  destruct (breakdown _ _ dests) as [bd|] eqn:Hbd; [|discriminate H]. simpl in H.
  injection H as <-. exists bd. split.
  - apply date_sub_Ok in Hend as [-> _]. reflexivity.
  - now apply dict_comp_keys in Hbd.
Qed.

(** The loop keeps the rows it starts from and adds one per offset. *)
Lemma loop_rows (offsets : list Z) (moving fr : Frame) :
  rfold (bucket df dests m last) offsets moving = Ok fr ->
  List.map fst fr = List.map fst moving ++ List.map (fun i => last - i) offsets /\
  (Forall (fun r => List.map fst (snd r) = dests) moving ->
   Forall (fun r => List.map fst (snd r) = dests) fr).
Proof.
  revert moving. induction offsets as [|i offsets IH]; intros moving H; simpl in H.
  - injection H as <-. simpl. now rewrite app_nil_r.
  - destruct (bucket df dests m last moving i) as [moving'|] eqn:Hb; [|discriminate H].
    simpl in H. apply bucket_Ok in Hb as (bd & -> & Hbd).
    destruct (IH _ H) as [Hidx Hcols]. split.
    + rewrite Hidx, map_app, <- app_assoc. reflexivity.
    + intros Hm. apply Hcols. apply Forall_app. split; [exact Hm|].
      constructor; [exact Hbd | constructor].
Qed.

End Loop.

(** The rows of a computed [moving] frame: one per offset of the range,
    indexed by [last - i], each with the destinations of the fetched
    frame as its columns. *)
Lemma moving_frame_rows (df : DataFrame) (m days_back : Z) (last : date) (fr : Frame) :
  moving_frame df m days_back last = Ok fr ->
  List.map fst fr = List.map (fun i => last - i) (range 0 days_back (STEP days_back)) /\
  Forall (fun r => List.map fst (snd r) = unique (List.map row_dest df)) fr.
Proof.
  unfold moving_frame. intros H.
  destruct (col_dest df) as [dest_col|] eqn:Hcol; [|discriminate H]. simpl in H.
  destruct (rfold (bucket df (unique dest_col) m last) _ []) as [moving|] eqn:Hloop;
    [|discriminate H].
  simpl in H.
  injection H as <-.
  assert (dest_col = List.map row_dest df) as ->.
  { destruct df; [discriminate Hcol | now injection Hcol as <-]. }
  apply loop_rows in Hloop as [Hidx Hcols]. split.
  - now rewrite fillna_index, Hidx.
  - apply fillna_columns, Hcols. constructor.
Qed.

(** C1, against the code: a bucket without records makes the division
    [0/0], which faults, as soon as the fetched frame has a destination;
    so does the plot of one exit on the anchor day over two days back,
    whose second bucket is empty, and with it the route. *)
Theorem empty_bucket_divides_by_zero :
  (forall dest dests, breakdown [] (shape0 (@nil row)) (dest :: dests) = Raise ZeroDivisionError) /\
  moving_frame (List.map exit_row one_exit) 90 2 (jan14 - 180) = Raise ZeroDivisionError /\
  fst (plot_moving_avg jan14 one_exit 90 2 empty_world) = Raise ZeroDivisionError /\
  fst (moving_avg jan14 one_exit 90 2 empty_world) = Raise ZeroDivisionError.
Proof.
  split; [exact breakdown_empty_bucket|]. repeat split; vm_compute; reflexivity.
Qed.




(** ** The step and the offsets *)

(** For [days_back >= 0] the loop visits [i = 0, step, 2*step, ...] while
    [i < days_back], with [step = max(1, days_back // 90)]. *)
Lemma loop_offsets (days_back i : Z) :
  0 <= days_back ->
  (In i (range 0 days_back (STEP days_back)) <->
   exists k : Z, 0 <= k /\ i = k * Z.max 1 (floordiv days_back 90) /\ i < days_back).
Proof.
  intros H. rewrite In_range_up.
  - now rewrite (STEP_max days_back H).
  - rewrite (STEP_max days_back H). lia.
Qed.

Lemma offsets_180 :
  STEP 180 = 2 /\
  range 0 180 (STEP 180) = List.map (fun k => 2 * Z.of_nat k) (seq 0 90).
Proof. split; reflexivity. Qed.

(** With records in every window, 180 days back at [m = 90] give 90
    buckets, ending 0, 2, ..., 178 days before the anchor day. *)
Lemma moving_frame_180 :
  exists fr,
    moving_frame (List.map exit_row two_exits) 90 180 (jan14 - 180) = Ok fr /\
    length fr = 90%nat /\
    List.map fst fr = List.map (fun k => jan14 - 180 - 2 * Z.of_nat k) (seq 0 90).
Proof.
  destruct (moving_frame (List.map exit_row two_exits) 90 180 (jan14 - 180)) as [fr|e] eqn:H;
    [|vm_compute in H; discriminate H].
  exists fr. split; [reflexivity|].
  apply moving_frame_rows in H as [Hidx _].
  assert (Hlen : length (List.map fst fr) = 90%nat) by (rewrite Hidx; reflexivity).
  rewrite length_map in Hlen. split; [exact Hlen|].
  rewrite Hidx. reflexivity.
Qed.

(** With no day to go back and a fetched frame that is not empty, the
    loop does not run and [moving] is the empty frame. *)
Lemma moving_frame_no_days (df : DataFrame) (m : Z) (last : date) :
  df <> [] -> moving_frame df m 0 last = Ok [].
Proof. intros H. destruct df; [contradiction | reflexivity]. Qed.

(** C6, against the code: when no record is fetched, [df['dest']] raises
    [KeyError] before the loop, whatever the range: with no day to go
    back the plot is an error and not an empty sequence, and the route
    passes the error on. *)
Theorem no_records_no_days_raises :
  (forall m days_back last, moving_frame [] m days_back last = Raise (KeyError "dest")) /\
  fst (plot_moving_avg jan14 [] 90 0 empty_world) = Raise (KeyError "dest") /\
  fst (moving_avg jan14 [] 90 0 empty_world) = Raise (KeyError "dest").
Proof.
  split; [reflexivity|]. split; vm_compute; reflexivity.
Qed.

(** ** Stale files *)

(** The sweep for day [DoY'] keeps the pie file of every day [DoY]
    whose digits start with those of [DoY']. *)
Lemma sweep_keeps_longer_days (m DoY DoY' : Z) :
  String.prefix (str DoY') (str DoY) = true ->
  kept DoY' (exit_pie_cache_path m DoY) = true.
Proof.
  intros H. unfold kept, exit_pie_cache_path.
  destruct (entry_name_join PLOT_CACHE_DIR
              ("PIE" +:+ str m +:+ "-d" +:+ str DoY +:+ ".json")) as [-> | ->];
    [reflexivity|].
  do 2 apply contains_skip.
  change (contains ("d" +:+ str DoY') ("-" +:+ "d" +:+ str DoY +:+ ".json") = true).
  apply contains_skip, contains_prefix.
  change (String.prefix (String "d" (str DoY')) (String "d" (str DoY +:+ ".json")) = true).
  simpl. destruct (ascii_dec "d" "d") as [_|Hne]; [|now elim Hne].
  now apply prefix_append_r.
Qed.

(** C3, against the code: the pie route runs on 2024-01-14, day 14, and
    writes [PIE365-d14.json]; it runs again on 2025-01-01, day 1, and
    writes [PIE365-d1.json]; the sweep for day 1 looks for the text [d1],
    finds it in [PIE365-d14.json], and leaves that file of day 14 in the
    cache directory. *)
Theorem stale_file_outlives_sweep :
  tm_yday jan14 = 14 /\ tm_yday jan1_next = 1 /\
  contains ("d" +:+ str 1) "PIE365-d14.json" = true /\
  let w1 := snd (serve (exit_pie jan14 one_exit 365) empty_world) in
  let w2 := snd (serve (exit_pie jan1_next one_exit 365) w1) in
  (exists fig, fst (serve (exit_pie jan14 one_exit 365) empty_world) = Ok fig) /\
  (exists fig, fst (serve (exit_pie jan1_next one_exit 365) w1) = Ok fig) /\
  List.map fst (map_to_list (fs w1)) = [exit_pie_cache_path 365 14] /\
  List.map fst (map_to_list (fs w2)) = [exit_pie_cache_path 365 1; exit_pie_cache_path 365 14].
Proof.
  repeat split; try (vm_compute; reflexivity); eexists; vm_compute; reflexivity.
Qed.

(** ** No check on [days_back] *)




















(** * Further properties *)

(** ** Proportions *)

(** X2: in a bucket with at least one record every destination asked
    for has a cell, which is 0 exactly when no record of the bucket has
    that destination, 1 exactly when all of them have it, and between
    the two otherwise. *)
Theorem proportion_zero_and_one (sub : DataFrame) (dests : list string) (dest : string)
                                (bd : list (string * cell)) (v : cell) :
  sub <> [] ->
  breakdown sub (shape0 sub) dests = Ok bd ->
  In (dest, v) bd ->
  exists p, v = Some p /\
            (p = 0%Q <-> dest_count sub dest = 0) /\
            (p = 1%Q <-> dest_count sub dest = shape0 sub) /\
            (0 <= p <= 1)%Q.
Proof.
  intros Hsub Hbd Hin. rewrite breakdown_nonempty in Hbd by exact Hsub.
  injection Hbd as <-. apply in_map_iff in Hin as (d & Heq & _).
  injection Heq as -> <-. fold (dest_count sub dest).
  assert (Hle : 0 <= dest_count sub dest <= shape0 sub).
  { unfold dest_count, shape0. split; [lia|].
    apply inj_le, List.filter_length_le. }
  assert (Hpos : 0 < shape0 sub).
  { unfold shape0. destruct sub; [contradiction | simpl length; lia]. }
  set (c := dest_count sub dest) in *. set (n := shape0 sub) in *.
  exists (Qred (Qmake c (Z.to_pos n))). split; [reflexivity|].
  assert (Hq : (Qred (Qmake c (Z.to_pos n)) == Qmake c (Z.to_pos n))%Q)
    by apply Qred_correct.
  split; [|split].
  - split.
    + intros H. rewrite H in Hq. unfold Qeq in Hq. simpl in Hq. lia.
    + intros ->. apply (Qred_complete (Qmake 0 (Z.to_pos n)) 0%Q).
      unfold Qeq. simpl. reflexivity.
  - split.
    + intros H. rewrite H in Hq. unfold Qeq in Hq. simpl in Hq.
      rewrite Z2Pos.id in Hq by exact Hpos. lia.
    + intros ->. apply (Qred_complete (Qmake n (Z.to_pos n)) 1%Q).
      unfold Qeq. simpl. rewrite Z2Pos.id by exact Hpos. lia.
  - rewrite Hq. unfold Qle. simpl. rewrite Z2Pos.id by exact Hpos. lia.
Qed.

Lemma proportion_zero_and_one_witness :
  exists p, Some 1%Q = Some p /\
            (p = 0%Q <-> dest_count (List.map exit_row one_exit) "Permanent Exit" = 0) /\
            (p = 1%Q <-> dest_count (List.map exit_row one_exit) "Permanent Exit"
                         = shape0 (List.map exit_row one_exit)) /\
            (0 <= p <= 1)%Q.
Proof.
  apply (proportion_zero_and_one (List.map exit_row one_exit)
           ["Permanent Exit"] "Permanent Exit" [("Permanent Exit", Some 1%Q)]).
  - vm_compute. discriminate.
  - vm_compute. reflexivity.
  - left. reflexivity.
Defined.

(** ** The fetched range and the buckets *)

Lemma filter_map_filter {A B : Type} (f : A -> B) (p q : A -> bool) (g : B -> bool)
                        (l : list A) :
  (forall x, p x && g (f x) = q x) ->
  List.filter g (List.map f (List.filter p l)) = List.map f (List.filter q l).
Proof.
  intros H. induction l as [|x l IH]; [reflexivity|]. simpl.
  rewrite <- (H x). destruct (p x); simpl; [|exact IH].
  destruct (g (f x)); simpl; now rewrite IH.
Qed.

Lemma window_of_fetched (session : Session) (first last start end_ : date) :
  first <= start -> end_ <= last ->
  window (List.map exit_row (List.filter (exited_in first last) session)) start end_
  = List.map exit_row (List.filter (exited_in start end_) session).
Proof.
  intros Hlo Hhi. unfold window. apply filter_map_filter.
  intros ex. unfold exited_in. simpl.
  destruct (Z.ltb_spec first (date_of_exit ex)), (Z.leb_spec (date_of_exit ex) last),
           (Z.ltb_spec start (date_of_exit ex)), (Z.leb_spec (date_of_exit ex) end_);
    simpl; try reflexivity; lia.
Qed.

(** X3: for [days_back >= 0] the one query of [plot_moving_avg] fetches
    enough: at every offset of the loop the bucket cut out of the
    fetched frame holds exactly the stored exits with
    [start < date <= end], none is lost to the bounds of the query. *)
Theorem buckets_see_all_records (session : Session) (last : date) (m days_back i : Z) :
  0 <= days_back ->
  In i (range 0 days_back (STEP days_back)) ->
  window (List.map exit_row
            (List.filter (exited_in (last - (m + days_back)) last) session))
         (last - i - m) (last - i)
  = List.map exit_row (List.filter (exited_in (last - i - m) (last - i)) session).
Proof.
  intros Hdb Hin. apply loop_offsets in Hin as (k & Hk & Hi & Hlt); [|exact Hdb].
  assert (0 <= i) by (rewrite Hi; apply Z.mul_nonneg_nonneg; lia).
  apply window_of_fetched; lia.
Qed.

Lemma buckets_see_all_records_witness :
  window (List.map exit_row
            (List.filter (exited_in (jan14 - 180 - (90 + 180)) (jan14 - 180)) two_exits))
         (jan14 - 180 - 100 - 90) (jan14 - 180 - 100)
  = List.map exit_row
      (List.filter (exited_in (jan14 - 180 - 100 - 90) (jan14 - 180 - 100)) two_exits).
Proof.
  apply (buckets_see_all_records two_exits (jan14 - 180) 90 180 100).
  - lia.
  - vm_compute. tauto.
Defined.

(** X4: the step is never 0 and caps the number of buckets: whatever
    [days_back], the loop runs at most 179 times, and a computed frame
    has at most 179 rows. *)
Theorem bucket_count_capped (days_back : Z) :
  STEP days_back <> 0 /\
  (length (range 0 days_back (STEP days_back)) <= 179)%nat /\
  forall df m last fr,
    moving_frame df m days_back last = Ok fr -> (length fr <= 179)%nat.
Proof.
  assert (Hlen : (length (range 0 days_back (STEP days_back)) <= 179)%nat).
  { unfold range. rewrite length_map, length_seq.
    assert (range_len 0 days_back (STEP days_back) <= 179); [|lia].
    unfold range_len, STEP, floordiv.
    pose proof (Z.div_mod days_back 90 ltac:(lia)) as Hdm.
    pose proof (Z.mod_pos_bound days_back 90 ltac:(lia)) as Hr.
    destruct (Z.eqb_spec (days_back / 90) 0) as [Hq|Hq].
    - simpl. destruct (Z.ltb_spec 0 days_back); [|lia].
      rewrite Z.div_1_r. lia.
    - destruct (Z.ltb_spec 0 (days_back / 90)) as [Hpos|Hneg].
      + destruct (Z.ltb_spec 0 days_back); [|lia].
        assert ((days_back - 1 - 0) / (days_back / 90) < 179); [|lia].
        apply Z.div_lt_upper_bound; [exact Hpos | nia].
      + destruct (Z.ltb_spec (days_back / 90) 0); [|lia].
        destruct (Z.ltb_spec days_back 0); [|lia].
        assert ((0 - 1 - days_back) / - (days_back / 90) < 90); [|lia].
        apply Z.div_lt_upper_bound; [lia | nia]. }
  split; [apply STEP_nonzero|]. split; [exact Hlen|].
  intros df m last fr Hfr. apply moving_frame_rows in Hfr as [Hidx _].
  rewrite <- (length_map fst), Hidx, length_map. exact Hlen.
Qed.

Lemma bucket_count_capped_witness :
  exists fr,
    moving_frame (List.map exit_row two_exits) 90 180 (jan14 - 180) = Ok fr /\
    (length fr <= 179)%nat.
Proof.
  destruct (moving_frame (List.map exit_row two_exits) 90 180 (jan14 - 180)) as [fr|e] eqn:H;
    [|vm_compute in H; discriminate H].
  exists fr. split; [reflexivity|].
  destruct (bucket_count_capped 180) as (_ & _ & Hcap).
  exact (Hcap _ _ _ _ H).
Defined.

(** X5: for [days_back >= 0] the rows of a computed frame are indexed
    [last], [last - step], [last - 2 step], ... with
    [step = max(1, days_back // 90)], all of them within the [days_back]
    days that end on [last]. *)
Theorem frame_index_descends (df : DataFrame) (m days_back : Z) (last : date) (fr : Frame) :
  0 <= days_back ->
  moving_frame df m days_back last = Ok fr ->
  List.map fst fr
  = List.map (fun k => last - Z.of_nat k * Z.max 1 (floordiv days_back 90))
             (seq 0 (length fr)) /\
  Forall (fun r => last - days_back < fst r <= last) fr.
Proof.
  intros Hdb Hfr. apply moving_frame_rows in Hfr as [Hidx _].
  assert (Hlen : length fr = Z.to_nat (range_len 0 days_back (STEP days_back))).
  { rewrite <- (length_map fst), Hidx, length_map. unfold range.
    now rewrite length_map, length_seq. }
  split.
  - rewrite Hidx, Hlen. unfold range. rewrite map_map.
    rewrite (STEP_max days_back Hdb). apply map_ext. intros k. lia.
  - apply (proj1 (Forall_map (@fst date (list (string * cell)))
                             (fun e => last - days_back < e <= last) fr)).
    rewrite Hidx. apply (proj2 (Forall_map _ _ _)). apply List.Forall_forall.
    intros i Hi. apply loop_offsets in Hi as (k & Hk & Hi & Hlt); [|exact Hdb].
    assert (0 <= i) by (rewrite Hi; apply Z.mul_nonneg_nonneg; lia).
    lia.
Qed.

Lemma frame_index_descends_witness :
  exists fr,
    moving_frame (List.map exit_row two_exits) 90 180 (jan14 - 180) = Ok fr /\
    Forall (fun r => jan14 - 180 - 180 < fst r <= jan14 - 180) fr.
Proof.
  destruct (moving_frame (List.map exit_row two_exits) 90 180 (jan14 - 180)) as [fr|e] eqn:H;
    [|vm_compute in H; discriminate H].
  exists fr. split; [reflexivity|].
  apply (frame_index_descends (List.map exit_row two_exits) 90 180 (jan14 - 180) fr);
    [lia | exact H].
Defined.

(** ** Cache file names *)

Lemma length_append (a b : string) :
  String.length (a +:+ b) = (String.length a + String.length b)%nat.
Proof.
  induction a as [|c a IH]; [reflexivity|].
  rewrite append_String. simpl. now rewrite IH.
Qed.

Lemma append_inj_r (a b s : string) : a +:+ s = b +:+ s -> a = b.
Proof.
  revert b. induction a as [|c a IH]; intros [|d b] H.
  - reflexivity.
  - apply (f_equal String.length) in H. rewrite !length_append in H. simpl in H. lia.
  - apply (f_equal String.length) in H. rewrite !length_append in H. simpl in H. lia.
  - rewrite !append_String in H. injection H as -> H. f_equal. now apply IH.
Qed.

Lemma mem_char_append (c : ascii) (a b : string) :
  mem_char c (a +:+ b) = mem_char c a || mem_char c b.
Proof.
  induction a as [|x a IH]; [reflexivity|].
  rewrite append_String. simpl. rewrite IH. apply orb_assoc.
Qed.

(** Text is cut in one way only at the first occurrence of a character. *)
Lemma split_at (c : ascii) (a a' r r' : string) :
  mem_char c a = false -> mem_char c a' = false ->
  a +:+ String c r = a' +:+ String c r' -> a = a' /\ r = r'.
Proof.
  revert a'. induction a as [|x a IH]; intros [|x' a'] Ha Ha' H;
    rewrite ?append_String in H; simpl in Ha, Ha'.
  - change (String c r = String c r') in H. injection H as ->. now split.
  - change (String c r = String x' (a' +:+ String c r')) in H. injection H as -> _.
    now rewrite Ascii.eqb_refl in Ha'.
  - change (String x (a +:+ String c r) = String c r') in H. injection H as -> _.
    now rewrite Ascii.eqb_refl in Ha.
  - injection H as -> H.
    apply orb_false_iff in Ha as [_ Ha]. apply orb_false_iff in Ha' as [_ Ha'].
    destruct (IH a' Ha Ha' H) as [-> ->]. now split.
Qed.

Lemma digits_plain (u : Decimal.uint) : mem_char "d" (NilEmpty.string_of_uint u) = false.
Proof. induction u; simpl; auto. Qed.

(** The decimal text of an integer has no letter [d]. *)
Lemma str_plain (n : Z) : mem_char "d" (str n) = false.
Proof.
  unfold str, NilZero.string_of_int, NilZero.string_of_uint.
  destruct (Z.to_int n) as [u|u]; destruct u; try reflexivity;
    simpl; apply digits_plain.
Qed.

Lemma str_inj (a b : Z) : str a = str b -> a = b.
Proof.
  unfold str. intros H. apply DecimalZ.to_int_inj.
  assert (Hnil : forall n, Z.to_int n <> Decimal.Pos Decimal.Nil /\
                           Z.to_int n <> Decimal.Neg Decimal.Nil).
  { intros [|q|q]; simpl; split; try discriminate; intros [= Hq];
      now apply DecimalPos.Unsigned.to_uint_nonnil in Hq. }
  apply (f_equal NilZero.int_of_string) in H.
  rewrite !NilZero.isi in H by apply Hnil. now injection H.
Qed.

(** X9: the cache file name tells the request and the day apart: for
    valid [m] two moving-average paths are equal only for the same [m],
    [days_back] and day of the year, two pie paths only for the same [m]
    and day, and a moving-average path is never a pie path. *)
Theorem cache_paths_distinct (m m' days_back days_back' DoY DoY' : Z) :
  m = 90 \/ m = 365 -> m' = 90 \/ m' = 365 ->
  (moving_avg_cache_path m days_back DoY = moving_avg_cache_path m' days_back' DoY' ->
   m = m' /\ days_back = days_back' /\ DoY = DoY') /\
  (exit_pie_cache_path m DoY = exit_pie_cache_path m' DoY' -> m = m' /\ DoY = DoY') /\
  moving_avg_cache_path m days_back DoY <> exit_pie_cache_path m' DoY'.
Proof.
  intros Hm Hm'.
  assert (Hcut : forall a x, a +:+ "-d" +:+ x = (a +:+ "-") +:+ String "d" x)
    by (intros; now rewrite append_assoc).
  assert (Hsame : forall rest rest', str m +:+ rest = str m' +:+ rest' ->
                                     m = m' /\ rest = rest').
  { intros rest rest' H.
    destruct Hm as [-> | ->], Hm' as [-> | ->];
      try (split; [reflexivity | now apply String.app_inj in H]);
      change (str 90) with "90" in H; change (str 365) with "365" in H;
      rewrite !append_String in H; discriminate H. }
  unfold moving_avg_cache_path, exit_pie_cache_path, path_join.
  split; [|split].
  - intros H. do 3 apply String.app_inj in H.
    apply Hsame in H as [-> H]. apply String.app_inj in H.
    rewrite !Hcut in H. apply split_at in H as [Hdb HD].
    + apply append_inj_r, str_inj in Hdb. apply append_inj_r, str_inj in HD. tauto.
    + rewrite mem_char_append, str_plain. reflexivity.
    + rewrite mem_char_append, str_plain. reflexivity.
  - intros H. do 3 apply String.app_inj in H.
    apply Hsame in H as [-> H].
    change ("-d" +:+ str DoY +:+ ".json" = "-d" +:+ str DoY' +:+ ".json") in H.
    apply String.app_inj in H. apply append_inj_r, str_inj in H. tauto.
  - intros H. do 2 apply String.app_inj in H.
    rewrite !append_String in H. discriminate H.
Qed.

Lemma cache_paths_distinct_witness :
  moving_avg_cache_path 90 30 14 <> exit_pie_cache_path 90 14 /\
  (exit_pie_cache_path 90 14 = exit_pie_cache_path 90 14 -> 90 = 90 /\ 14 = 14).
Proof.
  destruct (cache_paths_distinct 90 90 30 30 14 14) as (_ & Hpie & Hne).
  - left. reflexivity.
  - left. reflexivity.
  - split; [exact Hne | exact Hpie].
Defined.

(** ** The pie *)

(** X7: [plot_exit_pie] divides nothing, and has one of three outcomes:
    a date is out of range and it raises [OverflowError] before any
    query; or it makes the one query for [(last - m, last]] with
    [last = today - 180] and, no stored exit lying in that range,
    [px.pie] raises [ValueError] on the frame without a ['dest'] column;
    or it hands [px.pie] one row of count 1 for each stored exit of the
    range. *)
Theorem plot_exit_pie_outcome (today : date) (session : Session) (m : Z) (w : world) :
  plot_exit_pie today session m w = (Raise OverflowError, w) \/
  (0 < today - 180 - m <= _MAXORDINAL /\
   List.filter (exited_in (today - 180 - m) (today - 180)) session = [] /\
   plot_exit_pie today session m w
   = (Raise ValueError, emit (EvQuery (today - 180 - m) (today - 180)) w)) \/
  (0 < today - 180 - m <= _MAXORDINAL /\
   List.filter (exited_in (today - 180 - m) (today - 180)) session <> [] /\
   plot_exit_pie today session m w
   = (Ok (to_json
            (px_pie (List.map (fun ex => (exit_row ex, 1))
                              (List.filter (exited_in (today - 180 - m) (today - 180)) session))
                    "count" "dest" "dest" color_discrete_map)),
      emit (EvQuery (today - 180 - m) (today - 180)) w)).
Proof.
  unfold plot_exit_pie, bind, lift.
  destruct (date_sub today 180) as [last|e] eqn:H1.
  - apply date_sub_Ok in H1 as [-> _].
    destruct (date_sub (today - 180) m) as [first|e] eqn:H2.
    + apply date_sub_Ok in H2 as [-> Hrange]. right.
      rewrite _exit_df_eq, map_map.
      destruct (List.filter (exited_in (today - 180 - m) (today - 180)) session)
        as [|ex exits].
      * left. split; [exact Hrange|]. split; reflexivity.
      * right. split; [exact Hrange|]. split; [discriminate | reflexivity].
    + apply date_sub_Raise in H2 as ->. now left.
  - apply date_sub_Raise in H1 as ->. now left.
Qed.

(** X6: when a call of [exit_pie] has returned a figure and its queued
    cache write has run, a second call on a day with the same day of the
    year returns the same figure from the cache file, with no query and
    no task. *)
Theorem exit_pie_twice_same_day (today today' : date) (session session' : Session) (m : Z)
                                (w w1 : world) (fig : figure) (tasks : list task) :
  exit_pie today session m w = (Ok (fig, tasks), w1) ->
  tm_yday today' = tm_yday today ->
  exists w2 f,
    run_tasks tasks w1 = (Ok tt, w2) /\
    fs w2 !! exit_pie_cache_path m (tm_yday today) = Some f /\
    json_loads (data f) = Ok fig /\
    exit_pie today' session' m w2
    = (Ok (fig, []), emit (EvOpenRead (exit_pie_cache_path m (tm_yday today))) w2).
Proof.
  intros Hrun Hday.
  assert (Hm : _check_m m = Ok tt).
  { destruct (_check_m m) as [[]|e] eqn:E; [reflexivity|].
    unfold exit_pie, bind, lift in Hrun. rewrite E in Hrun. discriminate Hrun. }
  rewrite exit_pie_cases in Hrun by exact Hm.
  pose proof (fun w2 => exit_pie_cases today' session' m w2 Hm) as Hagain.
  rewrite Hday in Hagain. cbv zeta in *.
  set (path := exit_pie_cache_path m (tm_yday today)) in *.
  destruct (fs w !! path) as [f|] eqn:Hf.
  - destruct (readable f) eqn:Hr; [|discriminate Hrun].
    destruct (data f) as [doc|] eqn:Hd; [|discriminate Hrun].
    injection Hrun as <- <- <-.
    exists (emit (EvOpenRead path) w), f. rewrite Hagain. simpl.
    rewrite Hf, Hr, Hd. repeat (split; [reflexivity|]). reflexivity.
  - unfold recompute, bind, lift, ret in Hrun.
    pose proof (plot_exit_pie_fs today session m (emit (EvOpenRead path) w)) as Hfs.
    destruct (plot_exit_pie today session m (emit (EvOpenRead path) w))
      as [[s|e] wq]; [|discriminate Hrun].
    destruct (json_loads s) as [fig'|e] eqn:Hj; [|discriminate Hrun].
    injection Hrun as <- <- <-. simpl in Hfs.
    destruct (_update_cache_keeps_tagged fig' _ (tm_yday today) wq
                (exit_pie_name_tagged m (tm_yday today)))
      as (w2 & Hupd & Hlook).
    fold (exit_pie_cache_path m (tm_yday today)) in Hupd, Hlook.
    fold path in Hupd, Hlook.
    exists w2, (written wq path fig').
    assert (Hw : written wq path fig' = {| readable := true; data := json_dumps fig' |}).
    { unfold written. now rewrite Hfs, Hf. }
    split; [|split; [exact Hlook|]].
    + unfold run_tasks, cache_task. simpl. unfold bind. now rewrite Hupd.
    + split; [reflexivity|]. rewrite Hagain, Hlook, Hw. reflexivity.
Qed.

Lemma exit_pie_twice_same_day_witness :
  exists fig tasks w1 w2,
    exit_pie jan14 one_exit 365 empty_world = (Ok (fig, tasks), w1) /\
    run_tasks tasks w1 = (Ok tt, w2) /\
    exit_pie jan14 [] 365 w2
    = (Ok (fig, []), emit (EvOpenRead (exit_pie_cache_path 365 (tm_yday jan14))) w2).
Proof.
  destruct (exit_pie jan14 one_exit 365 empty_world) as [[[fig tasks]|e] w1] eqn:Hrun;
    [|vm_compute in Hrun; discriminate Hrun].
  destruct (exit_pie_twice_same_day jan14 jan14 one_exit [] 365 empty_world w1 fig tasks
              Hrun eq_refl) as (w2 & f & Htasks & _ & _ & Hagain).
  exists fig, tasks, w1, w2. repeat split; [exact Htasks | exact Hagain].
Defined.

(** ** The sweep *)

(** X8: when [_update_cache] completes, of the files other than the one
    it writes it has removed exactly those listed in the cache directory
    under a name without the text [d<DoY>]; every other file, in the
    directory or elsewhere, is as before. *)
Theorem sweep_removes_untagged (fig : figure) (cache_path : string) (DoY : Z)
                               (w w' : world) :
  _update_cache fig cache_path DoY w = (Ok tt, w') ->
  forall path, path <> cache_path ->
    (forall name, entry_name PLOT_CACHE_DIR path = Some name ->
                  contains ("d" +:+ str DoY) name = false -> fs w' !! path = None) /\
    (forall name, entry_name PLOT_CACHE_DIR path = Some name ->
                  contains ("d" +:+ str DoY) name = true -> fs w' !! path = fs w !! path) /\
    (entry_name PLOT_CACHE_DIR path = None -> fs w' !! path = fs w !! path).
Proof.
  intros Hdone.
  destruct (_update_cache_fs fig cache_path DoY w) as (w'' & Hrun & Hfs).
  rewrite Hdone in Hrun. injection Hrun as <-.
  intros path Hne. repeat split.
  - intros name Hname Htag. rewrite Hfs. unfold kept. now rewrite Hname, Htag.
  - intros name Hname Htag. rewrite Hfs. unfold kept. rewrite Hname, Htag.
    now apply lookup_insert_ne.
  - intros Hname. rewrite Hfs. unfold kept. rewrite Hname. now apply lookup_insert_ne.
Qed.

Lemma sweep_removes_untagged_witness :
  exists w',
    _update_cache (px_pie [] "count" "dest" "dest" color_discrete_map)
                  (exit_pie_cache_path 90 15) 15 corrupt_world = (Ok tt, w') /\
    fs w' !! moving_avg_cache_path 90 1 14 = None.
Proof.
  destruct (_update_cache (px_pie [] "count" "dest" "dest" color_discrete_map)
                          (exit_pie_cache_path 90 15) 15 corrupt_world)
    as [[[]|e] w'] eqn:Hrun; [|vm_compute in Hrun; discriminate Hrun].
  exists w'. split; [reflexivity|].
  destruct (sweep_removes_untagged _ _ _ _ _ Hrun (moving_avg_cache_path 90 1 14))
    as (Hgone & _ & _).
  - vm_compute. discriminate.
  - apply (Hgone "MA90-1-d14.json"); vm_compute; reflexivity.
Defined.

(** ** The routes and the files *)

Lemma _check_m_cases (m : Z) :
  _check_m m = Ok tt \/ _check_m m = Raise (HTTPException 404 "Not found. Try m=90 or m=365").
Proof. unfold _check_m. destruct (negb _); [now right | now left]. Qed.


Lemma run_tasks_total (tasks : list task) (w : world) :
  exists w', run_tasks tasks w = (Ok tt, w').
Proof.
  unfold run_tasks. revert w. induction tasks as [|t tasks IH]; intros w; simpl.
  - now exists w.
  - unfold bind at 1.
    destruct (_update_cache_fs (task_fig t) (task_cache_path t) (task_DoY t) w)
      as (w1 & -> & _).
    apply IH.
Qed.

Lemma moving_avg_fs (today : date) (session : Session) (m days_back : Z) (w : world) :
  fs (snd (moving_avg today session m days_back w)) = fs w.
Proof.
  destruct (_check_m_cases m) as [Hm|Hm].
  - rewrite moving_avg_cases by exact Hm. cbv zeta.
    destruct (fs w !! _) as [f|].
    + destruct (readable f); [destruct (data f)|]; reflexivity.
    + unfold recompute, bind, lift, ret.
      pose proof (plot_moving_avg_fs today session m days_back
                    (emit (EvOpenRead (moving_avg_cache_path m days_back (tm_yday today))) w))
        as Hfs.
      destruct (plot_moving_avg _ _ _ _ _) as [[[doc|raw]|e] wq]; exact Hfs.
  - unfold moving_avg, bind, lift. now rewrite Hm.
Qed.

Lemma exit_pie_fs (today : date) (session : Session) (m : Z) (w : world) :
  fs (snd (exit_pie today session m w)) = fs w.
Proof.
  destruct (_check_m_cases m) as [Hm|Hm].
  - rewrite exit_pie_cases by exact Hm. cbv zeta.
    destruct (fs w !! _) as [f|].
    + destruct (readable f); [destruct (data f)|]; reflexivity.
    + unfold recompute, bind, lift, ret.
      pose proof (plot_exit_pie_fs today session m
                    (emit (EvOpenRead (exit_pie_cache_path m (tm_yday today))) w))
        as Hfs.
      destruct (plot_exit_pie _ _ _ _) as [[[doc|raw]|e] wq]; exact Hfs.
  - unfold exit_pie, bind, lift. now rewrite Hm.
Qed.

(** X11: the routes themselves write nothing: whatever they return, the
    files are as before, the cache being written by the queued task
    only; and a request that ends in an exception leaves the files as
    they were, its tasks included. *)
Theorem failed_request_leaves_files (today : date) (session : Session) (m days_back : Z)
                                    (w : world) :
  fs (snd (moving_avg today session m days_back w)) = fs w /\
  fs (snd (exit_pie today session m w)) = fs w /\
  (forall e, fst (serve (moving_avg today session m days_back) w) = Raise e ->
             fs (snd (serve (moving_avg today session m days_back) w)) = fs w) /\
  (forall e, fst (serve (exit_pie today session m) w) = Raise e ->
             fs (snd (serve (exit_pie today session m) w)) = fs w).
Proof.
  split; [apply moving_avg_fs|]. split; [apply exit_pie_fs|]. split.
  - intros e. unfold serve, bind.
    pose proof (moving_avg_fs today session m days_back w) as Hfs.
    destruct (moving_avg today session m days_back w) as [[r|e'] w1]; [|intros _; exact Hfs].
    destruct (run_tasks_total (snd r) w1) as (w2 & ->). discriminate.
  - intros e. unfold serve, bind.
    pose proof (exit_pie_fs today session m w) as Hfs.
    destruct (exit_pie today session m w) as [[r|e'] w1]; [|intros _; exact Hfs].
    destruct (run_tasks_total (snd r) w1) as (w2 & ->). discriminate.
Qed.

Lemma failed_request_leaves_files_witness :
  fs (snd (serve (moving_avg jan14 one_exit 90 1) corrupt_world)) = fs corrupt_world.
Proof.
  destruct (failed_request_leaves_files jan14 one_exit 90 1 corrupt_world)
    as (_ & _ & H & _).
  apply (H JSONDecodeError). vm_compute. reflexivity.
Defined.

(** ** The frame of a plot *)



Lemma loop_nonempty (df : DataFrame) (dest : string) (dests : list string) (m : Z)
                    (last : date) (offsets : list Z) (moving fr : Frame) :
  rfold (bucket df (dest :: dests) m last) offsets moving = Ok fr ->
  forall i, In i offsets -> window df (last - i - m) (last - i) <> [].
Proof.
  revert moving. induction offsets as [|j offsets IH]; intros moving H i Hi;
    [contradiction|].
  simpl in H.
  destruct (bucket df (dest :: dests) m last moving j) as [moving'|] eqn:Hb;
    [|discriminate H].
  simpl in H. destruct Hi as [->|Hi]; [|now apply (IH _ H)].
  unfold bucket in Hb.
  destruct (date_sub last i) as [end_|] eqn:Hend; [|discriminate Hb]. simpl in Hb.
  destruct (date_sub end_ m) as [start|] eqn:Hstart; [|discriminate Hb]. simpl in Hb.
  apply date_sub_Ok in Hend as [-> _]. apply date_sub_Ok in Hstart as [-> _].
  intros Hempty. rewrite Hempty in Hb. discriminate Hb.
Qed.

(** X13: a computed frame has no bucket without records: when
    [plot_moving_avg] gets its frame, records were fetched and every
    window of the loop holds at least one of them; one empty window and
    there is no frame at all. *)
Theorem computed_frame_has_full_buckets (df : DataFrame) (m days_back : Z) (last : date)
                                        (fr : Frame) :
  moving_frame df m days_back last = Ok fr ->
  df <> [] /\
  forall i, In i (range 0 days_back (STEP days_back)) ->
            window df (last - i - m) (last - i) <> [].
Proof.
  unfold moving_frame. intros H.
  destruct df as [|r df]; [discriminate H|]. split; [discriminate|].
  unfold col_dest, rbind at 1 in H.
  destruct (rfold (bucket (r :: df) (unique (List.map row_dest (r :: df))) m last)
                  (range 0 days_back (STEP days_back)) []) as [moving|] eqn:Hloop;
    [|discriminate H].
  exact (loop_nonempty (r :: df) (row_dest r)
           (List.filter (fun y => negb (String.eqb y (row_dest r)))
                        (unique (List.map row_dest df)))
           m last _ [] moving Hloop).
Qed.

Lemma computed_frame_has_full_buckets_witness :
  window (List.map exit_row one_exit) (jan14 - 180 - 0 - 90) (jan14 - 180 - 0) <> [].
Proof.
  destruct (computed_frame_has_full_buckets (List.map exit_row one_exit) 90 1 (jan14 - 180)
              [(jan14 - 180, [("Permanent Exit", Some 1%Q)])]) as [_ H].
  - vm_compute. reflexivity.
  - apply H. vm_compute. tauto.
Defined.

(** ** Writing the cache twice *)

(** X14: a cache write done twice is done once: when [_update_cache]
    has completed and is run again with the same figure, path and day,
    the second run, when it completes, leaves every file as the first
    run left it. *)
Theorem update_cache_twice (fig : figure) (cache_path : string) (DoY : Z)
                           (w w1 w2 : world) :
  _update_cache fig cache_path DoY w = (Ok tt, w1) ->
  _update_cache fig cache_path DoY w1 = (Ok tt, w2) ->
  fs w2 = fs w1.
Proof.
  intros Hdone1 Hdone2.
  destruct (_update_cache_fs fig cache_path DoY w) as (w1' & Hrun1 & Hfs1).
  rewrite Hdone1 in Hrun1. injection Hrun1 as <-.
  destruct (_update_cache_fs fig cache_path DoY w1) as (w2' & Hrun2 & Hfs2).
  rewrite Hdone2 in Hrun2. injection Hrun2 as <-.
  apply map_eq. intros p. rewrite Hfs2.
  destruct (kept DoY p) eqn:Hk; [|now rewrite Hfs1, Hk].
  destruct (decide (cache_path = p)) as [<-|Hne].
  - rewrite lookup_insert_eq, Hfs1, Hk, lookup_insert_eq.
    unfold written at 1. rewrite Hfs1, Hk, lookup_insert_eq. reflexivity.
  - now rewrite lookup_insert_ne.
Qed.

Lemma update_cache_twice_witness :
  exists w1 w2,
    _update_cache (px_pie [] "count" "dest" "dest" color_discrete_map)
                  (exit_pie_cache_path 90 15) 15 corrupt_world = (Ok tt, w1) /\
    _update_cache (px_pie [] "count" "dest" "dest" color_discrete_map)
                  (exit_pie_cache_path 90 15) 15 w1 = (Ok tt, w2) /\
    fs w2 = fs w1.
Proof.
  destruct (_update_cache (px_pie [] "count" "dest" "dest" color_discrete_map)
                          (exit_pie_cache_path 90 15) 15 corrupt_world)
    as [[[]|e] w1] eqn:Hrun1; [|vm_compute in Hrun1; discriminate Hrun1].
  destruct (_update_cache (px_pie [] "count" "dest" "dest" color_discrete_map)
                          (exit_pie_cache_path 90 15) 15 w1)
    as [[[]|e] w2] eqn:Hrun2.
  - exists w1, w2. split; [reflexivity|]. split; [exact Hrun2|].
    exact (update_cache_twice _ _ _ _ _ _ Hrun1 Hrun2).
  - destruct (_update_cache_fs (px_pie [] "count" "dest" "dest" color_discrete_map)
                               (exit_pie_cache_path 90 15) 15 w1) as (w2' & Hok & _).
    rewrite Hrun2 in Hok. discriminate Hok.
Defined.
